(** * GCS cost optimizer: a shallow embedding of [gcs_cost_optimizer.py]

    The development follows the Python module top to bottom: the pricing
    table, the per-bucket scan ([_analyze_bucket]), the rule engine
    ([_generate_recommendations]), the percentage computations of the report
    ([display_results], [export_report]) and the apply engine
    ([apply_recommendations]).

    Modelling conventions.
    - Python [int] is [Z]; Python [float] is an exact rational [Q].  Rounding
      of binary64 arithmetic is not modelled: every statement below about
      costs is a statement about the exact values of the formulas the code
      evaluates.
    - A Python exception is [None] in the [option] monad.  Division raises
      on a zero divisor, [d[k]] raises on a missing key, [l[-1]] raises on an
      empty list, [input()] raises when the input is exhausted.
    - A [dict] used as a map is a [gmap string _]; a [dict] with a fixed set
      of keys ([bucket_data], a recommendation) is a record.
    - Timestamps are microseconds on the UTC time line, as an integer. *)

From Stdlib Require Import ZArith QArith Qminmax Lqa Ascii String.
From stdpp Require Import base option strings list gmap fin_maps pretty.

Local Open Scope string_scope.
Local Open Scope Z_scope.

(** ** Python primitives used by the module *)

Module Py.

(** [a > b] on floats. *)
Definition gt (a b : Q) : bool := negb (Qle_bool a b).

(** [max(a, b)] on floats: the first argument unless the second is
    strictly greater. *)
Definition max (a b : Q) : Q := if gt b a then b else a.

(** [a / b] on floats; raises [ZeroDivisionError] when [b] is zero. *)
Definition truediv (a b : Q) : option Q :=
  if Qeq_bool b 0 then None else Some (a / b)%Q.

(** [a / b] on integers (true division, the result is a float). *)
Definition int_truediv (a b : Z) : option Q :=
  truediv (inject_Z a) (inject_Z b).

(** [d.get(k, dflt)]. *)
Definition get {V} (d : gmap string V) (k : string) (dflt : V) : V :=
  default dflt (d !! k).

(** [d[k]]; raises [KeyError] when [k] is missing. *)
Definition getitem {V} (d : gmap string V) (k : string) : option V := d !! k.

(** [d[k] += 1] on an integer-valued dict. *)
Definition incr (d : gmap string Z) (k : string) : option (gmap string Z) :=
  v ← getitem d k; Some (<[k := v + 1]> d).

(** [s.split(sep)] for a one-character separator: every occurrence of the
    separator cuts, empty pieces are kept. *)
Fixpoint split_from (sep : ascii) (cur : string) (s : string) : list string :=
  match s with
  | EmptyString => [cur]
  | String c s' =>
      if Ascii.eqb c sep then cur :: split_from sep EmptyString s'
      else split_from sep (cur +:+ String c EmptyString) s'
  end.

Definition split (sep : ascii) (s : string) : list string :=
  split_from sep EmptyString s.

(** [l[-1]]; raises [IndexError] on the empty list. *)
Definition last_item {A} (l : list A) : option A := last l.

(** [s.lower()] on ASCII letters. *)
Definition lower_ascii (c : ascii) : ascii :=
  let n := N_of_ascii c in
  if ((65 <=? n) && (n <=? 90))%N then ascii_of_N (n + 32) else c.

Fixpoint lower (s : string) : string :=
  match s with
  | EmptyString => EmptyString
  | String c s' => String (lower_ascii c) (lower s')
  end.

(** [f"{x:.pf}"]: [p] decimals, round half to even on the exact value, the
    sign of a negative value is kept. *)
Definition round_half_even (n : Z) (d : Z) : Z :=
  let k := n / d in
  let r := n mod d in
  if d <? 2 * r then k + 1
  else if 2 * r =? d then (if Z.even k then k else k + 1)
  else k.

Fixpoint zero_pad (p : nat) (s : string) : string :=
  match p with
  | O => s
  | S p' => if (String.length s <? p)%nat then zero_pad p' ("0" +:+ s) else s
  end.

Definition format_fixed (p : nat) (x : Q) : string :=
  let scale := 10 ^ Z.of_nat p in
  let k := round_half_even (Z.abs (Qnum x) * scale) (Zpos (Qden x)) in
  (if Qnum x <? 0 then "-" else "")
    +:+ pretty (k / scale) +:+ "." +:+ zero_pad p (pretty (k mod scale)).

End Py.

(** ** Module-level constants *)

(** Storage class pricing, per GB and month. *)
Definition STORAGE_CLASS_PRICING : gmap string Q :=
  {[ "STANDARD" := 0.020%Q;
     "NEARLINE" := 0.010%Q;
     "COLDLINE" := 0.004%Q;
     "ARCHIVE"  := 0.0012%Q ]}.

(** Early deletion windows, in days. *)
Definition EARLY_DELETION_FEES : gmap string Z :=
  {[ "STANDARD" := 0; "NEARLINE" := 30; "COLDLINE" := 90; "ARCHIVE" := 365 ]}.

(** Retrieval costs per GB. *)
Definition RETRIEVAL_COSTS : gmap string Q :=
  {[ "STANDARD" := 0%Q;
     "NEARLINE" := 0.01%Q;
     "COLDLINE" := 0.02%Q;
     "ARCHIVE"  := 0.05%Q ]}.

(** ** Data model *)

(** An object of a listing whose creation time is known: its size and its
    creation time.  [None] stands for an object that has no [time_created]
    attribute at all, the one case the guard [hasattr(blob, 'time_created')]
    lets by.  An attribute that is there and holds [None] is not a [Blob];
    it is a [StorageObject], below. *)
Record Blob := {
  blob_size : Z;
  time_created : option Z;
}.

(** The bucket metadata read by the scan. *)
Record Bucket := {
  bucket_name : string;
  bucket_location : string;
  bucket_storage_class : string;
}.

(** One entry of [bucket_data['recommendations']]. *)
Record recommendation := {
  rec_type : string;
  rec_action : string;
  rec_savings : Q;
  rec_details : string;
}.

(** The [bucket_data] dict of [_analyze_bucket]. *)
Record BucketData := {
  bd_name : string;
  bd_location : string;
  storage_class : string;
  size_bytes : Z;
  object_count : Z;
  access_frequency : gmap string Z;
  last_accessed : gmap string Z;
  current_cost : Q;
  recommendations : list recommendation;
  optimized_cost : Q;
  savings : Q;
}.

(** The fields of [self] that the analysis reads and writes. *)
Record GCSCostOptimizer := {
  buckets_data : list BucketData;
  total_current_cost : Q;
  total_optimized_cost : Q;
}.

(** [__init__]. *)
Definition init : GCSCostOptimizer :=
  {| buckets_data := []; total_current_cost := 0%Q; total_optimized_cost := 0%Q |}.

(** Assignments [bucket_data[key] = v]. *)
Definition set_size_bytes (v : Z) (b : BucketData) : BucketData :=
  {| bd_name := bd_name b; bd_location := bd_location b;
     storage_class := storage_class b; size_bytes := v;
     object_count := object_count b; access_frequency := access_frequency b;
     last_accessed := last_accessed b; current_cost := current_cost b;
     recommendations := recommendations b; optimized_cost := optimized_cost b;
     savings := savings b |}.

Definition set_object_count (v : Z) (b : BucketData) : BucketData :=
  {| bd_name := bd_name b; bd_location := bd_location b;
     storage_class := storage_class b; size_bytes := size_bytes b;
     object_count := v; access_frequency := access_frequency b;
     last_accessed := last_accessed b; current_cost := current_cost b;
     recommendations := recommendations b; optimized_cost := optimized_cost b;
     savings := savings b |}.

Definition set_access_frequency (v : gmap string Z) (b : BucketData) : BucketData :=
  {| bd_name := bd_name b; bd_location := bd_location b;
     storage_class := storage_class b; size_bytes := size_bytes b;
     object_count := object_count b; access_frequency := v;
     last_accessed := last_accessed b; current_cost := current_cost b;
     recommendations := recommendations b; optimized_cost := optimized_cost b;
     savings := savings b |}.

Definition set_current_cost (v : Q) (b : BucketData) : BucketData :=
  {| bd_name := bd_name b; bd_location := bd_location b;
     storage_class := storage_class b; size_bytes := size_bytes b;
     object_count := object_count b; access_frequency := access_frequency b;
     last_accessed := last_accessed b; current_cost := v;
     recommendations := recommendations b; optimized_cost := optimized_cost b;
     savings := savings b |}.

Definition set_recommendations (v : list recommendation) (b : BucketData) : BucketData :=
  {| bd_name := bd_name b; bd_location := bd_location b;
     storage_class := storage_class b; size_bytes := size_bytes b;
     object_count := object_count b; access_frequency := access_frequency b;
     last_accessed := last_accessed b; current_cost := current_cost b;
     recommendations := v; optimized_cost := optimized_cost b;
     savings := savings b |}.

Definition set_optimized_cost (v : Q) (b : BucketData) : BucketData :=
  {| bd_name := bd_name b; bd_location := bd_location b;
     storage_class := storage_class b; size_bytes := size_bytes b;
     object_count := object_count b; access_frequency := access_frequency b;
     last_accessed := last_accessed b; current_cost := current_cost b;
     recommendations := recommendations b; optimized_cost := v;
     savings := savings b |}.

Definition set_savings (v : Q) (b : BucketData) : BucketData :=
  {| bd_name := bd_name b; bd_location := bd_location b;
     storage_class := storage_class b; size_bytes := size_bytes b;
     object_count := object_count b; access_frequency := access_frequency b;
     last_accessed := last_accessed b; current_cost := current_cost b;
     recommendations := recommendations b; optimized_cost := optimized_cost b;
     savings := v |}.

(** ** The rule engine: [_generate_recommendations]

    The function mutates [bucket_data] and appends to a local list; the
    embedding threads the pair through the three rules in source order. *)

Definition engine_state : Type := BucketData * list recommendation.

(** [size_gb = bucket_data['size_bytes'] / (1024 ** 3)]. *)
Definition size_gb_of (b : BucketData) : option Q :=
  Py.int_truediv (size_bytes b) (1024 ^ 3).

(** [cold_ratio]: rare plus cold over [max(object_count, 1)]. *)
Definition cold_ratio_of (b : BucketData) : option Q :=
  let access_freq := access_frequency b in
  Py.int_truediv (Py.get access_freq "rare" 0 + Py.get access_freq "cold" 0)
                 (Z.max (object_count b) 1).

(** The body shared by the two tier-change branches, for the chosen
    [new_class]. *)
Definition tier_change (size_gb : Q) (current_class new_class : string)
    (st : engine_state) : option engine_state :=
  let '(bucket_data, recommendations) := st in
  rate ← Py.getitem STORAGE_CLASS_PRICING new_class;
  let new_cost := (size_gb * rate)%Q in
  let savings := (current_cost bucket_data - new_cost)%Q in
  Some (set_optimized_cost new_cost bucket_data,
        (recommendations ++
          [ {| rec_type := "storage_class";
               rec_action := "Change storage class from " +:+ current_class
                               +:+ " to " +:+ new_class;
               rec_savings := savings;
               rec_details := "Estimated monthly savings: $"
                                +:+ Py.format_fixed 2 savings |} ])%list).

(** The class picked when [cold_ratio > 0.9]. *)
Definition coldest_class (access_freq : gmap string Z) : string :=
  if Py.get access_freq "cold" 0 >? Py.get access_freq "rare" 0
  then "ARCHIVE" else "COLDLINE".

(** Storage class recommendations. *)
Definition storage_class_rule (size_gb cold_ratio : Q) (st : engine_state)
    : option engine_state :=
  let current_class := storage_class st.1 in
  let access_freq := access_frequency st.1 in
  if String.eqb current_class "STANDARD" && Py.gt cold_ratio 0.7 then
    if Py.gt cold_ratio 0.9 then
      tier_change size_gb current_class (coldest_class access_freq) st
    else
      tier_change size_gb current_class "NEARLINE" st
  else Some st.

Definition lifecycle_action : string :=
  "Implement lifecycle policy to transition older objects to cheaper storage classes".

Definition lifecycle_details : string :=
  "Suggested policy: Move objects older than 30 days to NEARLINE, "
    +:+ "90 days to COLDLINE, and 365 days to ARCHIVE".

(** Lifecycle policy recommendations. *)
Definition lifecycle_rule (cold_ratio : Q) (st : engine_state) : engine_state :=
  let '(bucket_data, recommendations) := st in
  match recommendations with
  | [] =>
      if Py.gt cold_ratio 0.3 then
        let savings := (current_cost bucket_data * 0.3)%Q in
        (set_optimized_cost (current_cost bucket_data - savings)%Q bucket_data,
         (recommendations ++
           [ {| rec_type := "lifecycle";
                rec_action := lifecycle_action;
                rec_savings := savings;
                rec_details := lifecycle_details |} ])%list)
      else st
  | _ :: _ => st
  end.

(** Object versioning check. *)
Definition versioning_rule (st : engine_state) : engine_state :=
  let '(bucket_data, recommendations) := st in
  if object_count bucket_data >? 1000 then
    (bucket_data,
     (recommendations ++
       [ {| rec_type := "versioning";
            rec_action := "Review object versioning settings";
            rec_savings := 0%Q;
            rec_details :=
              "If enabled, consider adding lifecycle rules to delete old versions" |} ])%list)
  else st.

(** The three rules in source order, from the default
    [optimized_cost = current_cost] and the empty list. *)
Definition run_rules (bucket_data : BucketData) : option engine_state :=
  size_gb ← size_gb_of bucket_data;
  let bucket_data := set_optimized_cost (current_cost bucket_data) bucket_data in
  cold_ratio ← cold_ratio_of bucket_data;
  st ← storage_class_rule size_gb cold_ratio (bucket_data, []);
  Some (versioning_rule (lifecycle_rule cold_ratio st)).

(** The closing assignments to [bucket_data]. *)
Definition finish (st : engine_state) : BucketData :=
  let '(bucket_data, recommendations) := st in
  let bucket_data := set_recommendations recommendations bucket_data in
  set_savings (current_cost bucket_data - optimized_cost bucket_data)%Q bucket_data.

Definition _generate_recommendations (self : GCSCostOptimizer)
    (bucket_data : BucketData) : option (GCSCostOptimizer * BucketData) :=
  st ← run_rules bucket_data;
  let bucket_data := finish st in
  Some ({| buckets_data := buckets_data self;
           total_current_cost := total_current_cost self;
           total_optimized_cost :=
             (total_optimized_cost self + optimized_cost bucket_data)%Q |},
        bucket_data).

(** ** The scan: [_analyze_bucket] *)

(** [datetime.timedelta(days=d)] in microseconds. *)
Definition timedelta_days (d : Z) : Z := d * 86400000000.

(** The four age cohorts, named by their key in [access_counts]. *)
Inductive cohort := Recent | Medium | Rare | Cold.

Definition cohort_key (c : cohort) : string :=
  match c with
  | Recent => "recent" | Medium => "medium" | Rare => "rare" | Cold => "cold"
  end.

(** The [if]/[elif] chain on [created]. *)
Definition classify (now created : Z) : cohort :=
  let thirty_days_ago := now - timedelta_days 30 in
  let ninety_days_ago := now - timedelta_days 90 in
  let year_ago := now - timedelta_days 365 in
  if created >? thirty_days_ago then Recent
  else if created >? ninety_days_ago then Medium
  else if created >? year_ago then Rare
  else Cold.

(** The [time_created] attribute of any object the loop can be handed:
    missing, or there with a value.  The client library's [Blob] always has
    the attribute; its value is [None] as long as the object carries no
    [timeCreated] metadata. *)
Inductive attribute :=
  | NoAttribute
  | Attribute (value : option Z).

Record StorageObject := {
  object_size : Z;
  object_time_created : attribute;
}.

(** The [if]/[elif] chain on any value of the attribute: comparing [None]
    with a [datetime] raises [TypeError]. *)
Definition classify_value (now : Z) (created : option Z) : option cohort :=
  match created with
  | Some t => Some (classify now t)
  | None => None
  end.

(** One iteration of [for blob in blobs], on the running total size and
    the [access_counts] dict. *)
Definition scan_object (now : Z) (st : Z * gmap string Z) (obj : StorageObject)
    : option (Z * gmap string Z) :=
  let '(size_bytes, access_counts) := st in
  let size_bytes := size_bytes + object_size obj in
  match object_time_created obj with
  | Attribute created =>
      c ← classify_value now created;
      access_counts ← Py.incr access_counts (cohort_key c);
      Some (size_bytes, access_counts)
  | NoAttribute => Some (size_bytes, access_counts)
  end.

Fixpoint scan_objects (now : Z) (st : Z * gmap string Z)
    (objs : list StorageObject) : option (Z * gmap string Z) :=
  match objs with
  | [] => Some st
  | obj :: objs' => st' ← scan_object now st obj; scan_objects now st' objs'
  end.

(** A [Blob] as an object. *)
Definition object_of_blob (blob : Blob) : StorageObject :=
  {| object_size := blob_size blob;
     object_time_created :=
       match time_created blob with
       | Some t => Attribute (Some t)
       | None => NoAttribute
       end |}.

(** The same iteration on a [Blob], through the object it stands for. *)
Definition scan_blob (now : Z) (st : Z * gmap string Z) (blob : Blob)
    : option (Z * gmap string Z) :=
  scan_object now st (object_of_blob blob).

Fixpoint scan_blobs (now : Z) (st : Z * gmap string Z) (blobs : list Blob)
    : option (Z * gmap string Z) :=
  match blobs with
  | [] => Some st
  | blob :: blobs' => st' ← scan_blob now st blob; scan_blobs now st' blobs'
  end.

Definition initial_access_counts : gmap string Z :=
  {[ "recent" := 0; "medium" := 0; "rare" := 0; "cold" := 0 ]}.

(** The part of [_analyze_bucket] before the call of the rule engine:
    [blobs] is what [list_blobs(bucket.name)] returned and [now] the clock
    reading. *)
Definition snapshot (now : Z) (bucket : Bucket) (blobs : list Blob)
    : option BucketData :=
  let bucket_data :=
    {| bd_name := bucket_name bucket;
       bd_location := bucket_location bucket;
       storage_class := bucket_storage_class bucket;
       size_bytes := 0;
       object_count := 0;
       access_frequency := ∅;
       last_accessed := ∅;
       current_cost := 0%Q;
       recommendations := [];
       optimized_cost := 0%Q;
       savings := 0%Q |} in
  let bucket_data := set_object_count (Z.of_nat (length blobs)) bucket_data in
  '(total, access_counts) ←
     scan_blobs now (size_bytes bucket_data, initial_access_counts) blobs;
  let bucket_data := set_size_bytes total bucket_data in
  let bucket_data := set_access_frequency access_counts bucket_data in
  size_gb ← size_gb_of bucket_data;
  standard_rate ← Py.getitem STORAGE_CLASS_PRICING "STANDARD";
  let current_rate :=
    Py.get STORAGE_CLASS_PRICING (bucket_storage_class bucket) standard_rate in
  Some (set_current_cost (size_gb * current_rate)%Q bucket_data).

Definition _analyze_bucket (now : Z) (blobs : list Blob)
    (self : GCSCostOptimizer) (bucket : Bucket) : option GCSCostOptimizer :=
  bucket_data ← snapshot now bucket blobs;
  let self :=
    {| buckets_data := buckets_data self;
       total_current_cost :=
         (total_current_cost self + current_cost bucket_data)%Q;
       total_optimized_cost := total_optimized_cost self |} in
  '(self, bucket_data) ← _generate_recommendations self bucket_data;
  Some {| buckets_data := (buckets_data self ++ [bucket_data])%list;
          total_current_cost := total_current_cost self;
          total_optimized_cost := total_optimized_cost self |}.

(** [analyze_storage] over the listed buckets, each with its objects and
    the clock reading of its scan. *)
Fixpoint analyze_storage (self : GCSCostOptimizer)
    (buckets : list (Z * Bucket * list Blob)) : option GCSCostOptimizer :=
  match buckets with
  | [] => Some self
  | (now, bucket, blobs) :: rest =>
      self' ← _analyze_bucket now blobs self bucket;
      analyze_storage self' rest
  end.

(** ** The report: percentages of [display_results] and [export_report] *)

(** The "Savings %" cell of one summary row. *)
Definition bucket_savings_percent (bucket : BucketData) : option Q :=
  q ← Py.truediv (savings bucket) (Py.max (current_cost bucket) 0.01);
  Some (q * 100)%Q.

(** [savings_percent] of the totals, as [display_results] and
    [export_report] both compute it. *)
Definition total_savings_percent (self : GCSCostOptimizer) : option Q :=
  let total_savings := (total_current_cost self - total_optimized_cost self)%Q in
  q ← Py.truediv total_savings (Py.max (total_current_cost self) 0.01);
  Some (q * 100)%Q.

(** One row of [summary_data]. *)
Definition summary_row (bucket : BucketData) : option (list string) :=
  size_gb ← size_gb_of bucket;
  pct ← bucket_savings_percent bucket;
  Some [ bd_name bucket;
         storage_class bucket;
         Py.format_fixed 2 size_gb +:+ " GB";
         pretty (object_count bucket);
         "$" +:+ Py.format_fixed 2 (current_cost bucket);
         "$" +:+ Py.format_fixed 2 (optimized_cost bucket);
         "$" +:+ Py.format_fixed 2 (savings bucket);
         Py.format_fixed 1 pct +:+ "%" ].

(** ** The apply engine: [apply_recommendations] *)

(** A lifecycle rule as a dict: the rule that sets a storage class at an
    age in days, or the empty dict. *)
Inductive LifecycleRule :=
  | EmptyRule
  | SetStorageClass (storageClass : string) (age : Z).

(** What the provider stores for a bucket: the default storage class and
    the lifecycle rules. *)
Record RemoteBucket := {
  remote_storage_class : string;
  remote_lifecycle_rules : list LifecycleRule;
}.

(** The dict [lifecycle_rules] of the source: the one key ['rule'], bound
    to the list of the three rules. *)
Definition lifecycle_rules : list (string * list LifecycleRule) :=
  [ ("rule", [ SetStorageClass "NEARLINE" 30;
               SetStorageClass "COLDLINE" 90;
               SetStorageClass "ARCHIVE" 365 ]) ].

(** [dict(s)] for a string [s]: the empty dict for the empty string;
    otherwise [ValueError], the characters of a string being no pairs. *)
Definition dict_of_string (s : string) : option LifecycleRule :=
  match s with
  | EmptyString => Some EmptyRule
  | String _ _ => None
  end.

(** [bucket.lifecycle_rules = rules] for a dict [rules].  The setter is
    the client library's: it stores [[dict(rule) for rule in rules]], and
    iterating a dict yields its keys. *)
Definition set_lifecycle_rules (rules : list (string * list LifecycleRule))
    : option (list LifecycleRule) :=
  mapM (fun entry => dict_of_string (fst entry)) rules.

(** The body of the [try] block for one recommendation; [None] is an
    exception, which the [except] clause of the caller absorbs.
    [get_bucket] raises for a name the provider does not know. *)
Definition apply_one (bucket_name : string) (r : recommendation)
    (cloud : gmap string RemoteBucket) : option (gmap string RemoteBucket) :=
  if String.eqb (rec_type r) "storage_class" then
    bucket ← cloud !! bucket_name;
    new_class ← Py.last_item (Py.split " " (rec_action r));
    Some (<[bucket_name :=
              {| remote_storage_class := new_class;
                 remote_lifecycle_rules := remote_lifecycle_rules bucket |}]> cloud)
  else if String.eqb (rec_type r) "lifecycle" then
    bucket ← cloud !! bucket_name;
    rules ← set_lifecycle_rules lifecycle_rules;
    Some (<[bucket_name :=
              {| remote_storage_class := remote_storage_class bucket;
                 remote_lifecycle_rules := rules |}]> cloud)
  else Some cloud.

(** [try: ... except Exception: print(...)]. *)
Definition try_apply (bucket_name : string) (r : recommendation)
    (cloud : gmap string RemoteBucket) : gmap string RemoteBucket :=
  default cloud (apply_one bucket_name r cloud).

(** The inner loop over one bucket's recommendations.  [inputs] are the
    lines still to be read by [input()]; reading past the end raises. *)
Fixpoint apply_bucket (auto_approve : bool) (bucket_name : string)
    (recs : list recommendation)
    (st : gmap string RemoteBucket * list string)
    : option (gmap string RemoteBucket * list string) :=
  match recs with
  | [] => Some st
  | r :: recs' =>
      let '(cloud, inputs) := st in
      if auto_approve then
        apply_bucket auto_approve bucket_name recs'
                     (try_apply bucket_name r cloud, inputs)
      else
        match inputs with
        | [] => None
        | response :: inputs' =>
            if String.eqb (Py.lower response) "y" then
              apply_bucket auto_approve bucket_name recs'
                           (try_apply bucket_name r cloud, inputs')
            else
              apply_bucket auto_approve bucket_name recs' (cloud, inputs')
        end
  end.

Fixpoint apply_buckets (auto_approve : bool) (buckets : list BucketData)
    (st : gmap string RemoteBucket * list string)
    : option (gmap string RemoteBucket * list string) :=
  match buckets with
  | [] => Some st
  | bucket_data :: rest =>
      st' ← apply_bucket auto_approve (bd_name bucket_data)
                         (recommendations bucket_data) st;
      apply_buckets auto_approve rest st'
  end.

Definition apply_recommendations (self : GCSCostOptimizer) (auto_approve : bool)
    (st : gmap string RemoteBucket * list string)
    : option (gmap string RemoteBucket * list string) :=
  apply_buckets auto_approve (buckets_data self) st.

(** ** Vocabulary of the statements *)

(** The quantities the rules are phrased in, read off a [bucket_data]. *)
Definition rare (b : BucketData) : Z := Py.get (access_frequency b) "rare" 0.
Definition cold (b : BucketData) : Z := Py.get (access_frequency b) "cold" 0.

Definition sizeGB (b : BucketData) : Q :=
  (inject_Z (size_bytes b) / inject_Z (1024 ^ 3))%Q.

Definition coldRatio (b : BucketData) : Q :=
  (inject_Z (rare b + cold b) / inject_Z (Z.max (object_count b) 1))%Q.

(** The three kinds of recommendation, by their ['type'] string. *)
Definition is_tier_change (r : recommendation) : bool :=
  String.eqb (rec_type r) "storage_class".
Definition is_lifecycle (r : recommendation) : bool :=
  String.eqb (rec_type r) "lifecycle".
Definition is_versioning (r : recommendation) : bool :=
  String.eqb (rec_type r) "versioning".

(** The count of one cohort in an [access_counts] dict. *)
Definition count_of (c : cohort) (m : gmap string Z) : Z :=
  Py.get m (cohort_key c) 0.

(** The sum of the four cohort counts. *)
Definition cohort_total (m : gmap string Z) : Z :=
  count_of Recent m + count_of Medium m + count_of Rare m + count_of Cold m.

(** Objects without the [time_created] attribute. *)
Definition lacks_timestamp (blob : Blob) : bool :=
  match time_created blob with
  | Some _ => false
  | None => true
  end.

Definition untimed (blobs : list Blob) : Z :=
  Z.of_nat (length (List.filter lacks_timestamp blobs)).

(** [sum(blob.size for blob in blobs)]. *)
Fixpoint list_sum_sizes (blobs : list Blob) : Z :=
  match blobs with
  | [] => 0
  | blob :: blobs' => blob_size blob + list_sum_sizes blobs'
  end.

(** [1] for the cohort [c'] an object falls in, [0] for the others. *)
Definition hit (c c' : cohort) : Z :=
  match c, c' with
  | Recent, Recent | Medium, Medium | Rare, Rare | Cold, Cold => 1
  | _, _ => 0
  end.

(** Every cohort has its key in the dict. *)
Definition has_cohorts (m : gmap string Z) : Prop :=
  forall c, is_Some (m !! cohort_key c).

(** The dicts the three rules append. *)
Definition tier_rec (b : BucketData) (new_class : string) (rate : Q) : recommendation :=
  {| rec_type := "storage_class";
     rec_action := "Change storage class from " +:+ storage_class b
                     +:+ " to " +:+ new_class;
     rec_savings := (current_cost b - sizeGB b * rate)%Q;
     rec_details := "Estimated monthly savings: $"
                      +:+ Py.format_fixed 2 (current_cost b - sizeGB b * rate)%Q |}.

Definition lifecycle_rec (b : BucketData) : recommendation :=
  {| rec_type := "lifecycle";
     rec_action := lifecycle_action;
     rec_savings := (current_cost b * 0.3)%Q;
     rec_details := lifecycle_details |}.

Definition versioning_rec : recommendation :=
  {| rec_type := "versioning";
     rec_action := "Review object versioning settings";
     rec_savings := 0%Q;
     rec_details :=
       "If enabled, consider adding lifecycle rules to delete old versions" |}.

(** The class a tier change moves to. *)
Definition target_class (b : BucketData) : string :=
  if Py.gt (coldRatio b) 0.9 then coldest_class (access_frequency b)
  else "NEARLINE".

(** What the first two rules leave behind for a bucket: the list so far
    and the optimized cost.  One constructor per path through the code. *)
Inductive main_outcome (b : BucketData) : list recommendation -> Q -> Prop :=
  | tier_changed (rate : Q) :
      storage_class b = "STANDARD" ->
      (0.7 < coldRatio b)%Q ->
      STORAGE_CLASS_PRICING !! target_class b = Some rate ->
      main_outcome b [tier_rec b (target_class b) rate] (sizeGB b * rate)%Q
  | lifecycle_suggested :
      (storage_class b <> "STANDARD" \/ (coldRatio b <= 0.7)%Q) ->
      (0.3 < coldRatio b)%Q ->
      main_outcome b [lifecycle_rec b] (current_cost b - current_cost b * 0.3)%Q
  | left_alone :
      (storage_class b <> "STANDARD" \/ (coldRatio b <= 0.7)%Q) ->
      (coldRatio b <= 0.3)%Q ->
      main_outcome b [] (current_cost b).

(** The versioning entry, when the third rule fires. *)
Definition versioning_tail (b : BucketData) : list recommendation :=
  if object_count b >? 1000 then [versioning_rec] else [].

(** [bucket_data] after the engine, for a given outcome of the first two
    rules. *)
Definition analysed (b : BucketData) (main : list recommendation) (cost : Q)
    : BucketData :=
  {| bd_name := bd_name b; bd_location := bd_location b;
     storage_class := storage_class b; size_bytes := size_bytes b;
     object_count := object_count b; access_frequency := access_frequency b;
     last_accessed := last_accessed b; current_cost := current_cost b;
     recommendations := (main ++ versioning_tail b)%list;
     optimized_cost := cost;
     savings := (current_cost b - cost)%Q |}.

(** Two buckets that agree on what the engine reads. *)
Definition same_inputs (b1 b2 : BucketData) : Prop :=
  size_bytes b1 = size_bytes b2
  /\ storage_class b1 = storage_class b2
  /\ object_count b1 = object_count b2
  /\ (forall c, count_of c (access_frequency b1) = count_of c (access_frequency b2))
  /\ current_cost b1 = current_cost b2.

(** Sample inputs. *)
Definition sample_data (cls : string) (sz oc n_rare n_cold : Z) : BucketData :=
  {| bd_name := "logs"; bd_location := "US"; storage_class := cls;
     size_bytes := sz; object_count := oc;
     access_frequency :=
       {[ "recent" := oc - n_rare - n_cold; "medium" := 0;
          "rare" := n_rare; "cold" := n_cold ]};
     last_accessed := ∅;
     current_cost := (inject_Z sz / inject_Z (1024 ^ 3) * 0.020)%Q;
     recommendations := []; optimized_cost := 0%Q; savings := 0%Q |}.

Definition sample_bucket (cls : string) : Bucket :=
  {| bucket_name := "logs"; bucket_location := "US"; bucket_storage_class := cls |}.

Definition day : Z := 86400000000.

Definition sample_blobs : list Blob :=
  [ {| blob_size := 10; time_created := Some (999 * day) |};
    {| blob_size := 1024 ^ 3; time_created := Some (970 * day) |};
    {| blob_size := 5; time_created := None |};
    {| blob_size := 7; time_created := Some (910 * day) |};
    {| blob_size := 1; time_created := Some (635 * day) |};
    {| blob_size := 1; time_created := Some (635 * day + 1) |};
    {| blob_size := 3; time_created := Some 0 |} ].

(** Two scans of the same objects, listed in opposite orders under
    different bucket names. *)
Definition sample_snapshot_logs : BucketData :=
  Eval vm_compute in
    default (sample_data "" 0 0 0 0)
            (snapshot (1000 * day) (sample_bucket "STANDARD") sample_blobs).

Definition media_bucket : Bucket :=
  {| bucket_name := "media"; bucket_location := "EU";
     bucket_storage_class := "STANDARD" |}.

Definition sample_snapshot_media : BucketData :=
  Eval vm_compute in
    default (sample_data "" 0 0 0 0)
            (snapshot (1000 * day) media_bucket (rev sample_blobs)).

Definition busy_optimizer : GCSCostOptimizer :=
  {| buckets_data := [sample_data "NEARLINE" 1 1 0 0];
     total_current_cost := 7%Q; total_optimized_cost := 5%Q |}.

(** The action texts and the optimized cost of an engine run, for the
    examples. *)
Definition outline (o : option (GCSCostOptimizer * BucketData))
    : option (list string * Q) :=
  '(_, b) ← o; Some (map rec_action (recommendations b), Qred (optimized_cost b)).

(** A provider that knows the bucket of the samples. *)
Definition sample_cloud : gmap string RemoteBucket :=
  {[ "logs" := {| remote_storage_class := "STANDARD";
                  remote_lifecycle_rules := [] |} ]}.


(** ** Further vocabulary *)

(** The number of objects of [blobs] that have a creation time and fall
    in cohort [c] at [now]. *)
Fixpoint cohort_size (now : Z) (c : cohort) (blobs : list Blob) : Z :=
  match blobs with
  | [] => 0
  | blob :: blobs' =>
      match time_created blob with
      | Some created => hit c (classify now created)
      | None => 0
      end + cohort_size now c blobs'
  end.

(** Cohorts from the youngest to the oldest. *)
Definition cohort_rank (c : cohort) : Z :=
  match c with
  | Recent => 0 | Medium => 1 | Rare => 2 | Cold => 3
  end.

(** The keys of [access_counts]. *)
Definition cohort_keys : gset string :=
  {[ "recent"; "medium"; "rare"; "cold" ]}.

(** The sums of the current and of the optimized costs of a list of
    analysed buckets, accumulated from [acc] as the running totals are. *)
Fixpoint add_current_costs (acc : Q) (bs : list BucketData) : Q :=
  match bs with
  | [] => acc
  | b :: bs' => add_current_costs (acc + current_cost b)%Q bs'
  end.

Fixpoint add_optimized_costs (acc : Q) (bs : list BucketData) : Q :=
  match bs with
  | [] => acc
  | b :: bs' => add_optimized_costs (acc + optimized_cost b)%Q bs'
  end.

(** Objects that are a year old or more, with one between 90 days and a
    year. *)
Definition stale_blobs : list Blob :=
  [ {| blob_size := 2 * 1024 ^ 3; time_created := Some (100 * day) |};
    {| blob_size := 1024 ^ 3; time_created := Some (200 * day) |};
    {| blob_size := 1024 ^ 3; time_created := Some (300 * day) |};
    {| blob_size := 1024 ^ 3; time_created := Some (800 * day) |} ].

(** The number of recommendations the apply engine will walk through. *)
Fixpoint pending (buckets : list BucketData) : nat :=
  match buckets with
  | [] => 0
  | bucket_data :: rest => length (recommendations bucket_data) + pending rest
  end.

(** [c in s]. *)
Fixpoint contains (c : ascii) (s : string) : bool :=
  match s with
  | EmptyString => false
  | String c' s' => Ascii.eqb c' c || contains c s'
  end.

(** What the provider holds for a bucket after all recommendations of an
    analysed bucket were applied: only a tier change patches. *)
Definition patched (b : BucketData) (remote : RemoteBucket) : RemoteBucket :=
  if String.eqb (storage_class b) "STANDARD" && Py.gt (coldRatio b) 0.7 then
    {| remote_storage_class := target_class b;
       remote_lifecycle_rules := remote_lifecycle_rules remote |}
  else remote.

(** A run over the two sample listings, and a provider that knows one of
    the two buckets. *)
Definition sample_run : GCSCostOptimizer :=
  Eval vm_compute in
    default init
      (analyze_storage init
         [ (1000 * day, sample_bucket "STANDARD", sample_blobs);
           (1000 * day, media_bucket, stale_blobs) ]).

Definition media_cloud : gmap string RemoteBucket :=
  {[ "media" := {| remote_storage_class := "STANDARD";
                   remote_lifecycle_rules := [] |};
     "other" := {| remote_storage_class := "COLDLINE";
                   remote_lifecycle_rules := [SetStorageClass "ARCHIVE" 10] |} ]}.

(** ** The report on the console: [display_results] *)

(** What [display_results] writes: a line of text, or the table that
    [tabulate] lays out from the rows and the headers. *)
Inductive output :=
  | Print (text : string)
  | Tabulate (rows : list (list string)) (headers : list string).

Definition newline : string := String "010"%char EmptyString.

Definition summary_headers : list string :=
  [ "Bucket"; "Storage Class"; "Size"; "Objects"; "Current Cost";
    "Optimized Cost"; "Savings"; "Savings %" ].

(** [summary_data], one row per entry of [buckets_data]. *)
Fixpoint summary_rows (buckets : list BucketData) : option (list (list string)) :=
  match buckets with
  | [] => Some []
  | bucket :: rest =>
      row ← summary_row bucket;
      rows ← summary_rows rest;
      Some (row :: rows)
  end.

(** The lines of one recommendation, numbered [i]. *)
Definition recommendation_lines (i : Z) (r : recommendation) : list output :=
  ([ Print ("  " +:+ pretty i +:+ ". " +:+ rec_action r);
     Print ("     " +:+ rec_details r) ]
   ++ (if Py.gt (rec_savings r) 0
       then [ Print ("     Estimated savings: $"
                       +:+ Py.format_fixed 2 (rec_savings r) +:+ "/month") ]
       else []))%list.

(** [for i, rec in enumerate(recs, i)]. *)
Fixpoint enumerate_lines (i : Z) (recs : list recommendation) : list output :=
  match recs with
  | [] => []
  | r :: recs' => (recommendation_lines i r ++ enumerate_lines (i + 1) recs')%list
  end.

(** The detailed section of one bucket. *)
Definition bucket_lines (bucket : BucketData) : list output :=
  match recommendations bucket with
  | [] => [ Print (newline +:+ "Bucket: " +:+ bd_name bucket
                     +:+ " - No optimization recommendations") ]
  | _ :: _ =>
      Print (newline +:+ "Bucket: " +:+ bd_name bucket)
        :: enumerate_lines 1 (recommendations bucket)
  end.

Definition display_results (self : GCSCostOptimizer) : option (list output) :=
  match buckets_data self with
  | [] => Some [ Print "No data to display. Run analyze_storage() first." ]
  | _ :: _ =>
      summary_data ← summary_rows (buckets_data self);
      let total_savings := (total_current_cost self - total_optimized_cost self)%Q in
      q ← Py.truediv total_savings (Py.max (total_current_cost self) 0.01);
      let savings_percent := (q * 100)%Q in
      Some (([ Print (newline +:+ "===== STORAGE COST OPTIMIZATION REPORT ====="
                       +:+ newline);
              Tabulate summary_data summary_headers;
              Print (newline +:+ "Total Current Monthly Cost: $"
                       +:+ Py.format_fixed 2 (total_current_cost self));
              Print ("Total Optimized Monthly Cost: $"
                       +:+ Py.format_fixed 2 (total_optimized_cost self));
              Print ("Total Monthly Savings: $" +:+ Py.format_fixed 2 total_savings
                       +:+ " (" +:+ Py.format_fixed 1 savings_percent +:+ "%)");
              Print (newline +:+ "===== DETAILED RECOMMENDATIONS ====="
                       +:+ newline) ]
            ++ concat (map bucket_lines (buckets_data self)))%list)
  end.

(** ** The exported report: [export_report] *)

(** The ['summary'] dict of the report. *)
Record Summary := {
  total_buckets : Z;
  summary_total_current_cost : Q;
  summary_total_optimized_cost : Q;
  total_savings : Q;
  savings_percent : Q;
}.

(** The [report] dict that [json.dump] writes. *)
Record Report := {
  project_id : string;
  generated_at : string;
  summary : Summary;
  buckets : list BucketData;
}.

(** [export_report] on a file system that maps a file name to the report
    it holds; [open(filename, 'w')] replaces what was there.  [project]
    is [self.project_id] and [stamp] the text of
    [datetime.datetime.now().isoformat()]. *)
Definition export_report (project stamp : string) (self : GCSCostOptimizer)
    (filename : string) (files : gmap string Report)
    : option (gmap string Report) :=
  match buckets_data self with
  | [] => Some files
  | _ :: _ =>
      q ← Py.truediv (total_current_cost self - total_optimized_cost self)
                      (Py.max (total_current_cost self) 0.01);
      let report :=
        {| project_id := project;
           generated_at := stamp;
           summary :=
             {| total_buckets := Z.of_nat (length (buckets_data self));
                summary_total_current_cost := total_current_cost self;
                summary_total_optimized_cost := total_optimized_cost self;
                total_savings :=
                  (total_current_cost self - total_optimized_cost self)%Q;
                savings_percent := (q * 100)%Q |};
           buckets := buckets_data self |} in
      Some (<[filename := report]> files)
  end.

(** ** The command line: [main] *)

(** The parsed arguments. *)
Record Args := {
  args_project : string;
  args_credentials : option string;
  args_apply : bool;
  args_auto_approve : bool;
  args_export : option string;
}.

(** The truth value of [args.export]: set and not the empty string. *)
Definition export_target (args : Args) : option string :=
  match args_export args with
  | Some EmptyString => None
  | Some filename => Some filename
  | None => None
  end.

(** The [try] block of [main], after the arguments are parsed: the listed
    buckets with their objects and clock readings, the provider's bucket
    settings, the answers on standard input and the files are given;
    the files after the run are returned.  [None] is an exception; the
    calls to the provider and to the file system are taken to succeed. *)
Definition main_body (args : Args) (stamp : string)
    (listing : list (Z * Bucket * list Blob))
    (cloud : gmap string RemoteBucket) (inputs : list string)
    (files : gmap string Report) : option (gmap string Report) :=
  optimizer ← analyze_storage init listing;
  _ ← display_results optimizer;
  _ ← (if args_apply args
       then apply_recommendations optimizer (args_auto_approve args) (cloud, inputs)
       else Some (cloud, inputs));
  match export_target args with
  | Some filename => export_report (args_project args) stamp optimizer filename files
  | None => Some files
  end.

(** [main]: the exit code and the files after the run; an exception
    leaves exit code 1. *)
Definition main (args : Args) (stamp : string)
    (listing : list (Z * Bucket * list Blob))
    (cloud : gmap string RemoteBucket) (inputs : list string)
    (files : gmap string Report) : Z * gmap string Report :=
  match main_body args stamp listing cloud inputs files with
  | Some files' => (0, files')
  | None => (1, files)
  end.

(** The bucket as the provider describes it after its default storage
    class was set to [cls]. *)
Definition reclassed (bucket : Bucket) (cls : string) : Bucket :=
  {| bucket_name := bucket_name bucket;
     bucket_location := bucket_location bucket;
     bucket_storage_class := cls |}.
(** * Properties *)

(** ** Python primitives *)

Lemma gt_true (a b : Q) : Py.gt a b = true <-> (b < a)%Q.
Proof.
  unfold Py.gt. rewrite negb_true_iff, <- not_true_iff_false, Qle_bool_iff.
  split; [apply Qnot_le_lt | apply Qlt_not_le].
Qed.

Lemma gt_false (a b : Q) : Py.gt a b = false <-> (a <= b)%Q.
Proof.
  unfold Py.gt. rewrite negb_false_iff. apply Qle_bool_iff.
Qed.

Lemma max_floor (a b : Q) : (b <= Py.max a b)%Q.
Proof.
  unfold Py.max. destruct (Py.gt b a) eqn:E; [apply Qle_refl|].
  now apply gt_false.
Qed.

Lemma truediv_nonzero (a b : Q) :
  ~ (b == 0)%Q -> Py.truediv a b = Some (a / b)%Q.
Proof.
  intros Hb. unfold Py.truediv.
  destruct (Qeq_bool b 0) eqn:E; [|reflexivity].
  apply Qeq_bool_iff in E. contradiction.
Qed.

Lemma int_truediv_nonzero (a b : Z) :
  b <> 0 -> Py.int_truediv a b = Some (inject_Z a / inject_Z b)%Q.
Proof.
  intros Hb. apply truediv_nonzero.
  unfold Qeq, inject_Z. simpl. lia.
Qed.

(** ** The pricing table *)

Lemma pricing_standard : STORAGE_CLASS_PRICING !! "STANDARD" = Some 0.020%Q.
Proof. vm_compute. reflexivity. Qed.

Lemma pricing_nearline : STORAGE_CLASS_PRICING !! "NEARLINE" = Some 0.010%Q.
Proof. vm_compute. reflexivity. Qed.

Lemma pricing_coldline : STORAGE_CLASS_PRICING !! "COLDLINE" = Some 0.004%Q.
Proof. vm_compute. reflexivity. Qed.

Lemma pricing_archive : STORAGE_CLASS_PRICING !! "ARCHIVE" = Some 0.0012%Q.
Proof. vm_compute. reflexivity. Qed.

Lemma pricing_unknown (cls : string) :
  cls <> "STANDARD" -> cls <> "NEARLINE" -> cls <> "COLDLINE" -> cls <> "ARCHIVE" ->
  STORAGE_CLASS_PRICING !! cls = None.
Proof.
  intros. unfold STORAGE_CLASS_PRICING.
  rewrite !lookup_insert_ne by congruence.
  rewrite lookup_singleton_ne by congruence. reflexivity.
Qed.

Lemma pricing_cases (cls : string) :
  (cls = "STANDARD" \/ cls = "NEARLINE" \/ cls = "COLDLINE" \/ cls = "ARCHIVE")
  \/ STORAGE_CLASS_PRICING !! cls = None.
Proof.
  destruct (decide (cls = "STANDARD")); [tauto|].
  destruct (decide (cls = "NEARLINE")); [tauto|].
  destruct (decide (cls = "COLDLINE")); [tauto|].
  destruct (decide (cls = "ARCHIVE")); [tauto|].
  right. now apply pricing_unknown.
Qed.

(** ** The rule engine *)

Lemma size_gb_of_total (b : BucketData) : size_gb_of b = Some (sizeGB b).
Proof. unfold size_gb_of, sizeGB. now apply int_truediv_nonzero. Qed.

Lemma cold_ratio_of_total (b : BucketData) : cold_ratio_of b = Some (coldRatio b).
Proof. unfold cold_ratio_of, coldRatio. apply int_truediv_nonzero. lia. Qed.

Lemma sizeGB_nonneg (b : BucketData) : 0 <= size_bytes b -> (0 <= sizeGB b)%Q.
Proof.
  intros H. unfold sizeGB. apply Qle_shift_div_l; [reflexivity|].
  rewrite Qmult_0_l. unfold Qle, inject_Z. simpl. lia.
Qed.

Lemma coldest_class_cases (af : gmap string Z) :
  (Py.get af "cold" 0 > Py.get af "rare" 0 /\ coldest_class af = "ARCHIVE")
  \/ (Py.get af "cold" 0 <= Py.get af "rare" 0 /\ coldest_class af = "COLDLINE").
Proof.
  unfold coldest_class.
  destruct (Z.gtb_spec (Py.get af "cold" 0) (Py.get af "rare" 0)); [left|right]; split; auto; lia.
Qed.

Lemma tier_change_known (size_gb rate : Q) (cur new : string)
    (b : BucketData) (recs : list recommendation) :
  STORAGE_CLASS_PRICING !! new = Some rate ->
  tier_change size_gb cur new (b, recs) =
    Some (set_optimized_cost (size_gb * rate)%Q b,
          (recs ++ [ {| rec_type := "storage_class";
                        rec_action := "Change storage class from " +:+ cur +:+ " to " +:+ new;
                        rec_savings := (current_cost b - size_gb * rate)%Q;
                        rec_details := "Estimated monthly savings: $"
                          +:+ Py.format_fixed 2 (current_cost b - size_gb * rate)%Q |} ])%list).
Proof. intros H. unfold tier_change, Py.getitem. rewrite H. reflexivity. Qed.

Lemma target_class_priced (b : BucketData) :
  exists rate,
    STORAGE_CLASS_PRICING !! target_class b = Some rate
    /\ (0 < rate)%Q /\ (rate <= 0.010)%Q.
Proof.
  unfold target_class.
  destruct (Py.gt (coldRatio b) 0.9).
  - destruct (coldest_class_cases (access_frequency b)) as [[_ E]|[_ E]]; rewrite E.
    + exists 0.0012%Q. repeat split; auto using pricing_archive; lra.
    + exists 0.004%Q. repeat split; auto using pricing_coldline; lra.
  - exists 0.010%Q. repeat split; auto using pricing_nearline; lra.
Qed.

Lemma versioning_rule_eq (b : BucketData) (recs : list recommendation) :
  versioning_rule (b, recs) = (b, (recs ++ versioning_tail b)%list).
Proof.
  unfold versioning_rule, versioning_tail.
  destruct (object_count b >? 1000); [reflexivity|].
  now rewrite app_nil_r.
Qed.

(** The paths on which the first rule appends nothing: the second rule
    decides on [cold_ratio > 0.3] alone. *)
Ltac no_tier_change b :=
  unfold lifecycle_rule; cbn [mbind option_bind];
  let H3 := fresh "H3" in
  destruct (Py.gt (coldRatio b) 0.3) eqn:H3;
  [ apply gt_true in H3;
    exists [lifecycle_rec b], (current_cost b - current_cost b * 0.3)%Q
  | apply gt_false in H3;
    exists [], (current_cost b) ];
  (split; [constructor; auto | reflexivity]).

(** The rules never raise, the versioning rule runs last, and what it
    receives is one of the three outcomes. *)
Lemma run_rules_outcome (b : BucketData) :
  exists main cost,
    main_outcome b main cost
    /\ run_rules b = Some (versioning_rule (set_optimized_cost cost b, main)).
Proof.
  unfold run_rules.
  rewrite size_gb_of_total. cbn [mbind option_bind].
  change (cold_ratio_of (set_optimized_cost (current_cost b) b)) with (cold_ratio_of b).
  rewrite cold_ratio_of_total. cbn [mbind option_bind].
  unfold storage_class_rule. cbn [fst storage_class access_frequency set_optimized_cost].
  destruct (String.eqb_spec (storage_class b) "STANDARD") as [Hstd|Hstd];
    destruct (Py.gt (coldRatio b) 0.7) eqn:H7; cbn [andb].
  - (* STANDARD and cold: tier change *)
    apply gt_true in H7.
    destruct (target_class_priced b) as (rate & Hrate & _).
    exists [tier_rec b (target_class b) rate], (sizeGB b * rate)%Q.
    split; [now constructor|].
    assert (Ht : tier_change (sizeGB b) (storage_class b) (target_class b)
                   (set_optimized_cost (current_cost b) b, []) = Some
                   (set_optimized_cost (sizeGB b * rate)%Q b,
                    [tier_rec b (target_class b) rate])).
    { rewrite (tier_change_known _ rate) by exact Hrate. reflexivity. }
    unfold target_class in Ht |- *.
    destruct (Py.gt (coldRatio b) 0.9); rewrite Ht; reflexivity.
  - (* STANDARD, not cold enough *)
    apply gt_false in H7. no_tier_change b.
  - (* another class, cold *)
    no_tier_change b.
  - (* another class, not cold *)
    apply gt_false in H7. no_tier_change b.
Qed.

Lemma generate_outcome (self : GCSCostOptimizer) (b : BucketData) :
  exists main cost,
    main_outcome b main cost
    /\ _generate_recommendations self b =
         Some ({| buckets_data := buckets_data self;
                  total_current_cost := total_current_cost self;
                  total_optimized_cost := (total_optimized_cost self + cost)%Q |},
               analysed b main cost).
Proof.
  destruct (run_rules_outcome b) as (main & cost & Hout & Hrun).
  exists main, cost. split; [exact Hout|].
  unfold _generate_recommendations. rewrite Hrun, versioning_rule_eq.
  reflexivity.
Qed.

(** Membership in the list of an analysed bucket. *)
Lemma in_analysed (b : BucketData) (main : list recommendation) (cost : Q)
    (r : recommendation) :
  In r (recommendations (analysed b main cost)) <->
  In r main \/ (object_count b > 1000 /\ r = versioning_rec).
Proof.
  cbn [recommendations analysed]. rewrite in_app_iff. unfold versioning_tail.
  destruct (Z.gtb_spec (object_count b) 1000); cbn [In]; intuition (auto; lia).
Qed.

(** ** The scan *)

Lemma cohort_key_inj (c c' : cohort) : cohort_key c = cohort_key c' -> c = c'.
Proof. destruct c, c'; intros H; try reflexivity; discriminate H. Qed.

Lemma hit_same (c : cohort) : hit c c = 1.
Proof. now destruct c. Qed.

Lemma hit_other (c c' : cohort) : c <> c' -> hit c c' = 0.
Proof. destruct c, c'; intros H; try reflexivity; now contradiction H. Qed.

Lemma hit_total (c' : cohort) :
  hit Recent c' + hit Medium c' + hit Rare c' + hit Cold c' = 1.
Proof. now destruct c'. Qed.

Lemma initial_has_cohorts : has_cohorts initial_access_counts.
Proof. intros []; vm_compute; eauto. Qed.

(** [access_counts[key] += 1] on a dict that has the key. *)
Lemma incr_cohort (m : gmap string Z) (c' : cohort) :
  has_cohorts m ->
  exists m',
    Py.incr m (cohort_key c') = Some m'
    /\ has_cohorts m'
    /\ forall c, count_of c m' = count_of c m + hit c c'.
Proof.
  intros Hm. destruct (Hm c') as [v Hv].
  exists (<[cohort_key c' := v + 1]> m).
  split; [|split].
  - unfold Py.incr, Py.getitem. rewrite Hv. reflexivity.
  - intros c. rewrite lookup_insert.
    destruct (decide (cohort_key c' = cohort_key c)); [eauto | apply Hm].
  - intros c. unfold count_of, Py.get.
    destruct (decide (cohort_key c' = cohort_key c)) as [E|Hne].
    + apply cohort_key_inj in E as ->.
      rewrite lookup_insert_eq, Hv, hit_same. reflexivity.
    + rewrite lookup_insert_ne by exact Hne.
      rewrite hit_other by (intros ->; now apply Hne). lia.
Qed.

(** The loop on a [Blob], spelled out. *)
Lemma scan_blob_eq (now total : Z) (counts : gmap string Z) (blob : Blob) :
  scan_blob now (total, counts) blob =
    match time_created blob with
    | Some created =>
        access_counts ← Py.incr counts (cohort_key (classify now created));
        Some (total + blob_size blob, access_counts)
    | None => Some (total + blob_size blob, counts)
    end.
Proof.
  unfold scan_blob, scan_object, object_of_blob.
  cbn [object_size object_time_created].
  destruct (time_created blob); reflexivity.
Qed.

(** One iteration: the size is added, and the object is counted in its
    cohort or, without a timestamp, not at all. *)
Lemma scan_blob_step (now total : Z) (counts : gmap string Z) (blob : Blob) :
  has_cohorts counts ->
  exists counts',
    scan_blob now (total, counts) blob = Some (total + blob_size blob, counts')
    /\ has_cohorts counts'
    /\ match time_created blob with
       | Some created =>
           forall c, count_of c counts' = count_of c counts + hit c (classify now created)
       | None => counts' = counts
       end.
Proof.
  intros Hm. rewrite scan_blob_eq.
  destruct (time_created blob) as [created|].
  - destruct (incr_cohort counts (classify now created) Hm) as (m' & -> & Hm' & Hc).
    exists m'. now repeat split.
  - exists counts. now repeat split.
Qed.

Lemma scan_blob_total (now total : Z) (counts counts' : gmap string Z)
    (total' : Z) (blob : Blob) :
  has_cohorts counts ->
  scan_blob now (total, counts) blob = Some (total', counts') ->
  cohort_total counts' =
    cohort_total counts + (if lacks_timestamp blob then 0 else 1).
Proof.
  intros Hm Hs.
  destruct (scan_blob_step now total counts blob Hm) as (m' & Hs' & _ & Hc).
  rewrite Hs in Hs'. injection Hs' as _ <-.
  unfold lacks_timestamp. destruct (time_created blob) as [created|].
  - unfold cohort_total. rewrite !Hc.
    pose proof (hit_total (classify now created)). lia.
  - rewrite Hc. lia.
Qed.

(** The whole loop. *)
Lemma scan_blobs_total (now : Z) (blobs : list Blob) :
  forall (total : Z) (counts : gmap string Z),
    has_cohorts counts ->
    exists total' counts',
      scan_blobs now (total, counts) blobs = Some (total', counts')
      /\ has_cohorts counts'
      /\ total' = total + list_sum_sizes blobs
      /\ cohort_total counts' =
           cohort_total counts + Z.of_nat (length blobs) - untimed blobs.
Proof.
  induction blobs as [|blob blobs IH]; intros total counts Hm.
  - exists total, counts. cbn. unfold untimed. cbn. repeat split; auto; lia.
  - destruct (scan_blob_step now total counts blob Hm) as (m1 & Hs & Hm1 & _).
    pose proof (scan_blob_total _ _ _ _ _ _ Hm Hs) as Ht.
    destruct (IH (total + blob_size blob) m1 Hm1) as (total' & m' & Hss & Hm' & Hsz & Hsum).
    exists total', m'. cbn [scan_blobs]. rewrite Hs. cbn [mbind option_bind].
    split; [exact Hss|]. split; [exact Hm'|].
    split; [cbn [list_sum_sizes]; lia|].
    rewrite Hsum, Ht. unfold untimed. cbn [List.filter length].
    destruct (lacks_timestamp blob); cbn [length]; lia.
Qed.

Lemma initial_cohort_total : cohort_total initial_access_counts = 0.
Proof. vm_compute. reflexivity. Qed.

(** The rate [_analyze_bucket] charges for a class. *)
Lemma current_rate_positive (cls : string) :
  (0 < Py.get STORAGE_CLASS_PRICING cls 0.020)%Q.
Proof.
  unfold Py.get.
  destruct (pricing_cases cls) as [[-> | [-> | [-> | ->]]] | E]; [| | | |rewrite E].
  - rewrite pricing_standard. reflexivity.
  - rewrite pricing_nearline. reflexivity.
  - rewrite pricing_coldline. reflexivity.
  - rewrite pricing_archive. reflexivity.
  - reflexivity.
Qed.

Lemma standard_rate_charged :
  Py.get STORAGE_CLASS_PRICING "STANDARD" 0.020%Q = 0.020%Q.
Proof. vm_compute. reflexivity. Qed.

(** The scan never raises; the snapshot it builds. *)
Lemma snapshot_result (now : Z) (bucket : Bucket) (blobs : list Blob) :
  exists counts,
    cohort_total counts = Z.of_nat (length blobs) - untimed blobs
    /\ snapshot now bucket blobs =
         Some {| bd_name := bucket_name bucket;
                 bd_location := bucket_location bucket;
                 storage_class := bucket_storage_class bucket;
                 size_bytes := list_sum_sizes blobs;
                 object_count := Z.of_nat (length blobs);
                 access_frequency := counts;
                 last_accessed := ∅;
                 current_cost :=
                   (inject_Z (list_sum_sizes blobs) / inject_Z (1024 ^ 3)
                    * Py.get STORAGE_CLASS_PRICING (bucket_storage_class bucket) 0.020)%Q;
                 recommendations := [];
                 optimized_cost := 0%Q;
                 savings := 0%Q |}.
Proof.
  destruct (scan_blobs_total now blobs 0 initial_access_counts initial_has_cohorts)
    as (total & counts & Hscan & _ & Htotal & Hsum).
  exists counts. split.
  { rewrite Hsum, initial_cohort_total. lia. }
  unfold snapshot. cbn [size_bytes set_object_count].
  rewrite Hscan. cbn [mbind option_bind].
  rewrite size_gb_of_total. cbn [mbind option_bind].
  unfold Py.getitem at 1. rewrite pricing_standard. cbn [mbind option_bind].
  subst total. reflexivity.
Qed.

(** The scan on objects whose creation time is set or whose attribute is
    missing: an object with a creation time is counted in exactly one cohort,
    the first of recent (created after now-30d), medium (after now-90d), rare
    (after now-365d) and cold whose test it passes; an object without the
    attribute is counted in none; so the four counts of a scanned bucket add
    up to its object count minus the objects without the attribute. *)
Theorem cohort_counts (now : Z) :
  (forall created,
      (classify now created = Recent <-> created > now - 30 * day)
      /\ (classify now created = Medium <->
            created <= now - 30 * day /\ created > now - 90 * day)
      /\ (classify now created = Rare <->
            created <= now - 90 * day /\ created > now - 365 * day)
      /\ (classify now created = Cold <-> created <= now - 365 * day))
  /\ (forall total counts blob created,
        has_cohorts counts ->
        time_created blob = Some created ->
        exists counts',
          scan_blob now (total, counts) blob = Some (total + blob_size blob, counts')
          /\ count_of (classify now created) counts'
               = count_of (classify now created) counts + 1
          /\ forall c, c <> classify now created ->
                       count_of c counts' = count_of c counts)
  /\ (forall total counts blob,
        time_created blob = None ->
        scan_blob now (total, counts) blob = Some (total + blob_size blob, counts))
  /\ (forall bucket blobs,
        exists bd,
          snapshot now bucket blobs = Some bd
          /\ object_count bd = Z.of_nat (length blobs)
          /\ count_of Recent (access_frequency bd) + count_of Medium (access_frequency bd)
             + count_of Rare (access_frequency bd) + count_of Cold (access_frequency bd)
             = object_count bd - untimed blobs).
Proof.
  split; [|split; [|split]].
  - intros created. unfold classify, timedelta_days, day.
    destruct (Z.gtb_spec created (now - 30 * 86400000000));
      destruct (Z.gtb_spec created (now - 90 * 86400000000));
      destruct (Z.gtb_spec created (now - 365 * 86400000000)).
    all: repeat split; intros; try discriminate; try reflexivity; lia.
  - intros total counts blob created Hm Hc.
    destruct (scan_blob_step now total counts blob Hm) as (m' & Hs & _ & Hcount).
    rewrite Hc in Hcount. exists m'. split; [exact Hs|]. split.
    + rewrite Hcount, hit_same. reflexivity.
    + intros c Hne. rewrite Hcount, hit_other by exact Hne. lia.
  - intros total counts blob Hc. rewrite scan_blob_eq, Hc. reflexivity.
  - intros bucket blobs.
    destruct (snapshot_result now bucket blobs) as (counts & Hsum & Hsnap).
    eexists. split; [exact Hsnap|]. split; [reflexivity|].
    exact Hsum.
Qed.

(** On objects of the two kinds of [Blob] the general loop is the loop on
    [Blob]. *)
Lemma scan_object_of_blob (now : Z) (st : Z * gmap string Z) (blob : Blob) :
  scan_object now st (object_of_blob blob) = scan_blob now st blob.
Proof.
  reflexivity.
Qed.

Lemma scan_objects_of_blobs (now : Z) (blobs : list Blob) :
  forall st, scan_objects now st (map object_of_blob blobs) = scan_blobs now st blobs.
Proof.
  induction blobs as [|blob blobs IH]; intros st; cbn [map scan_objects scan_blobs].
  - reflexivity.
  - rewrite scan_object_of_blob. destruct (scan_blob now st blob); [apply IH | reflexivity].
Qed.

(** C6: an object whose [time_created] attribute is there but holds [None],
    as on the client library's objects without a creation time, is not left
    out of the cohorts: the guard lets it by, the first comparison raises,
    and the scan of every listing that holds such an object raises, so that
    no cohort counts come out of it.  On the other objects the loop is the
    one on [Blob]. *)
Theorem unset_creation_time_raises (now : Z) :
  (forall st size,
      scan_object now st
        {| object_size := size; object_time_created := Attribute None |} = None)
  /\ (forall objs st,
        Exists (fun obj => object_time_created obj = Attribute None) objs ->
        scan_objects now st objs = None)
  /\ (forall blobs st,
        scan_objects now st (map object_of_blob blobs) = scan_blobs now st blobs)
  /\ scan_objects now (0, initial_access_counts)
        [ {| object_size := 10; object_time_created := Attribute (Some now) |};
          {| object_size := 5; object_time_created := Attribute None |} ] = None.
Proof.
  assert (Hone : forall st size,
             scan_object now st
               {| object_size := size; object_time_created := Attribute None |} = None).
  { intros [total counts] size. reflexivity. }
  assert (Hall : forall objs st,
             Exists (fun obj => object_time_created obj = Attribute None) objs ->
             scan_objects now st objs = None).
  { induction objs as [|obj objs IH]; intros st Hex; [inversion Hex|].
    cbn [scan_objects].
    destruct (scan_object now st obj) as [st'|] eqn:E; [|reflexivity].
    cbn [mbind option_bind].
    inversion Hex as [? ? Hobj | ? ? Hrest]; subst.
    - destruct obj as [size attr]. cbn in Hobj. subst attr.
      rewrite Hone in E. discriminate E.
    - now apply IH. }
  split; [exact Hone|]. split; [exact Hall|].
  split; [intros blobs st; apply scan_objects_of_blobs|].
  apply Hall. right. left. reflexivity.
Qed.


(** C8: the pricing lookup of the scan never fails: a storage class that is
    none of STANDARD, NEARLINE, COLDLINE, ARCHIVE is charged the STANDARD
    rate, and a known class its own rate. *)
Theorem pricing_lookup_total (now : Z) (bucket : Bucket) (blobs : list Blob) :
  exists bd standard_rate,
    snapshot now bucket blobs = Some bd
    /\ STORAGE_CLASS_PRICING !! "STANDARD" = Some standard_rate
    /\ storage_class bd = bucket_storage_class bucket
    /\ (bucket_storage_class bucket <> "STANDARD" ->
        bucket_storage_class bucket <> "NEARLINE" ->
        bucket_storage_class bucket <> "COLDLINE" ->
        bucket_storage_class bucket <> "ARCHIVE" ->
        current_cost bd = (sizeGB bd * standard_rate)%Q)
    /\ (forall rate,
          STORAGE_CLASS_PRICING !! bucket_storage_class bucket = Some rate ->
          current_cost bd = (sizeGB bd * rate)%Q)
    /\ (forall cls,
          is_Some (STORAGE_CLASS_PRICING !! cls) <->
          cls = "STANDARD" \/ cls = "NEARLINE" \/ cls = "COLDLINE" \/ cls = "ARCHIVE").
Proof.
  destruct (snapshot_result now bucket blobs) as (counts & _ & Hsnap).
  eexists _, 0.020%Q. split; [exact Hsnap|].
  split; [exact pricing_standard|]. split; [reflexivity|].
  cbn [current_cost]. unfold sizeGB. cbn [size_bytes]. unfold Py.get.
  split; [|split].
  - intros H1 H2 H3 H4. rewrite pricing_unknown by assumption. reflexivity.
  - intros rate ->. reflexivity.
  - intros cls. split.
    + intros [rate Hrate].
      destruct (pricing_cases cls) as [H|H]; [exact H|].
      rewrite H in Hrate. discriminate Hrate.
    + intros [-> | [-> | [-> | ->]]]; vm_compute; eauto.
Qed.

(** ** Claims about the rule engine *)

(** C2: a STANDARD bucket whose cold ratio exceeds 0.7 gets exactly one
    tier-change recommendation.  Its target is ARCHIVE when the ratio exceeds
    0.9 and cold outnumbers rare, COLDLINE when the ratio exceeds 0.9
    otherwise, NEARLINE when the ratio is at most 0.9; its savings are the
    current cost minus size in GB times the target's rate, and that product
    becomes the optimized cost. *)
Theorem tier_change_for_cold_standard (self : GCSCostOptimizer) (b : BucketData) :
  storage_class b = "STANDARD" ->
  (0.7 < coldRatio b)%Q ->
  exists self' b' r target rate,
    _generate_recommendations self b = Some (self', b')
    /\ List.filter is_tier_change (recommendations b') = [r]
    /\ ((0.9 < coldRatio b)%Q -> cold b > rare b -> target = "ARCHIVE")
    /\ ((0.9 < coldRatio b)%Q -> cold b <= rare b -> target = "COLDLINE")
    /\ ((coldRatio b <= 0.9)%Q -> target = "NEARLINE")
    /\ STORAGE_CLASS_PRICING !! target = Some rate
    /\ rec_action r = "Change storage class from STANDARD to " +:+ target
    /\ rec_savings r = (current_cost b - sizeGB b * rate)%Q
    /\ optimized_cost b' = (sizeGB b * rate)%Q.
Proof.
  intros Hstd Hcold.
  destruct (generate_outcome self b) as (main & cost & Hout & Hgen).
  destruct Hout as [rate _ _ Hrate | [Hne | Hle] _ | [Hne | Hle] _];
    try contradiction; try (exfalso; lra).
  eexists _, _, (tier_rec b (target_class b) rate), (target_class b), rate.
  split; [exact Hgen|].
  split.
  { cbn [recommendations analysed]. unfold versioning_tail.
    destruct (object_count b >? 1000); reflexivity. }
  unfold target_class, cold, rare.
  destruct (Py.gt (coldRatio b) 0.9) eqn:H9;
    [apply gt_true in H9 | apply gt_false in H9].
  - destruct (coldest_class_cases (access_frequency b)) as [[Hc E]|[Hc E]].
    all: repeat split; try (intros; solve [lia | lra | exact E]).
    all: try (unfold target_class in Hrate; rewrite (proj2 (gt_true _ _) H9) in Hrate; exact Hrate).
    all: cbn [rec_action tier_rec]; rewrite Hstd; reflexivity.
  - repeat split; try (intros; solve [lia | lra | reflexivity]).
    + unfold target_class in Hrate. rewrite (proj2 (gt_false _ _) H9) in Hrate. exact Hrate.
    + cbn [rec_action tier_rec]. rewrite Hstd. reflexivity.
Qed.

Lemma tier_change_for_cold_standard_witness :
  let b := sample_data "STANDARD" (100 * 1024 ^ 3) 10 0 10 in
  storage_class b = "STANDARD"
  /\ (0.7 < coldRatio b)%Q
  /\ exists self' b' r,
       _generate_recommendations init b = Some (self', b')
       /\ List.filter is_tier_change (recommendations b') = [r]
       /\ rec_action r = "Change storage class from STANDARD to ARCHIVE".
Proof.
  intros b.
  assert (Hstd : storage_class b = "STANDARD") by reflexivity.
  assert (Hcold : (0.7 < coldRatio b)%Q) by (vm_compute; reflexivity).
  split; [exact Hstd|]. split; [exact Hcold|].
  destruct (tier_change_for_cold_standard init b Hstd Hcold)
    as (self' & b' & r & target & rate & Hgen & Hone & Harch & _ & _ & _ & Hact & _).
  exists self', b', r. split; [exact Hgen|]. split; [exact Hone|].
  rewrite Hact, Harch; [reflexivity | vm_compute; reflexivity | vm_compute; reflexivity].
Defined.

(** C3: a lifecycle-policy recommendation is emitted exactly when no
    tier-change recommendation was emitted and the cold ratio exceeds 0.3;
    its savings are 0.3 times the current cost and the optimized cost is the
    current cost minus those savings, that is 0.7 times the current cost. *)
Theorem lifecycle_iff_no_tier_change_and_cold (self : GCSCostOptimizer) (b : BucketData) :
  exists self' b',
    _generate_recommendations self b = Some (self', b')
    /\ ((exists r, In r (recommendations b') /\ is_lifecycle r = true)
        <-> ((forall r, In r (recommendations b') -> is_tier_change r = false)
             /\ (0.3 < coldRatio b)%Q))
    /\ (forall r, In r (recommendations b') -> is_lifecycle r = true ->
          rec_savings r = (current_cost b * 0.3)%Q
          /\ optimized_cost b' = (current_cost b - rec_savings r)%Q
          /\ (optimized_cost b' == 0.7 * current_cost b)%Q).
Proof.
  destruct (generate_outcome self b) as (main & cost & Hout & Hgen).
  eexists _, _. split; [exact Hgen|].
  destruct Hout as [rate Hstd H7 Hrate | Hno H3 | Hno H3].
  - (* tier change: no lifecycle entry *)
    split; [split|].
    + intros (r & Hin & Hr). apply in_analysed in Hin.
      destruct Hin as [[<-|[]] | [_ ->]]; discriminate Hr.
    + intros [Hnone _]. specialize (Hnone (tier_rec b (target_class b) rate)).
      rewrite in_analysed in Hnone. discriminate Hnone. left. now left.
    + intros r Hin Hr. apply in_analysed in Hin.
      destruct Hin as [[<-|[]] | [_ ->]]; discriminate Hr.
  - (* lifecycle entry *)
    split; [split|].
    + intros _. split; [|exact H3].
      intros r Hin. apply in_analysed in Hin.
      destruct Hin as [[<-|[]] | [_ ->]]; reflexivity.
    + intros _. exists (lifecycle_rec b). rewrite in_analysed.
      split; [left; now left | reflexivity].
    + intros r Hin Hr. apply in_analysed in Hin.
      destruct Hin as [[<-|[]] | [_ ->]]; [|discriminate Hr].
      cbn [rec_savings lifecycle_rec optimized_cost analysed].
      repeat split. ring.
  - (* nothing: the ratio is at most 0.3 *)
    split; [split|].
    + intros (r & Hin & Hr). apply in_analysed in Hin.
      destruct Hin as [[] | [_ ->]]; discriminate Hr.
    + intros [_ H]. exfalso. lra.
    + intros r Hin Hr. apply in_analysed in Hin.
      destruct Hin as [[] | [_ ->]]; discriminate Hr.
Qed.

(** C4: the versioning-review recommendation is in the list exactly when
    the object count exceeds 1000, whatever the other rules did; its savings
    are 0, and the rule that emits it runs last and leaves [bucket_data], so
    the optimized cost, as it found it. *)
Theorem versioning_iff_many_objects (self : GCSCostOptimizer) (b : BucketData) :
  exists self' b' st,
    _generate_recommendations self b = Some (self', b')
    /\ ((exists r, In r (recommendations b') /\ is_versioning r = true)
        <-> object_count b > 1000)
    /\ (forall r, In r (recommendations b') -> is_versioning r = true ->
          rec_savings r = 0%Q)
    /\ run_rules b = Some (versioning_rule st)
    /\ optimized_cost b' = optimized_cost (fst st)
    /\ (forall st', fst (versioning_rule st') = fst st').
Proof.
  destruct (run_rules_outcome b) as (main & cost & Hout & Hrun).
  assert (Hgen : _generate_recommendations self b = Some
            ({| buckets_data := buckets_data self;
                total_current_cost := total_current_cost self;
                total_optimized_cost := (total_optimized_cost self + cost)%Q |},
             analysed b main cost)).
  { unfold _generate_recommendations. rewrite Hrun, versioning_rule_eq. reflexivity. }
  eexists _, _, (set_optimized_cost cost b, main).
  split; [exact Hgen|].
  assert (Hmain : forall r, In r main -> is_versioning r = false).
  { destruct Hout; intros r Hin; cbn [In] in Hin;
      intuition (subst; reflexivity). }
  split; [split|split; [|split; [|split]]].
  - intros (r & Hin & Hr). apply in_analysed in Hin.
    destruct Hin as [Hin | [Hcount _]]; [|exact Hcount].
    rewrite (Hmain r Hin) in Hr. discriminate Hr.
  - intros Hcount. exists versioning_rec. rewrite in_analysed.
    split; [right; now split | reflexivity].
  - intros r Hin Hr. apply in_analysed in Hin.
    destruct Hin as [Hin | [_ ->]]; [|reflexivity].
    rewrite (Hmain r Hin) in Hr. discriminate Hr.
  - exact Hrun.
  - reflexivity.
  - intros [b0 recs]. now rewrite versioning_rule_eq.
Qed.

(** C5: the list holds at most one tier-change or lifecycle-policy entry
    (never both), that entry comes before the versioning-review entry, and
    the list has at most two entries. *)
Theorem recommendation_list_shape (self : GCSCostOptimizer) (b : BucketData) :
  exists self' b',
    _generate_recommendations self b = Some (self', b')
    /\ (length (recommendations b') <= 2)%nat
    /\ ~ ((exists r, In r (recommendations b') /\ is_tier_change r = true)
          /\ (exists r, In r (recommendations b') /\ is_lifecycle r = true))
    /\ (length (List.filter (fun r => is_tier_change r || is_lifecycle r)
                  (recommendations b')) <= 1)%nat
    /\ (forall (i j : nat) (ri rj : recommendation),
          recommendations b' !! i = Some ri ->
          recommendations b' !! j = Some rj ->
          is_versioning ri = true ->
          is_tier_change rj || is_lifecycle rj = true ->
          (j < i)%nat).
Proof.
  destruct (generate_outcome self b) as (main & cost & Hout & Hgen).
  eexists _, _. split; [exact Hgen|].
  cbn [recommendations analysed]. unfold versioning_tail.
  destruct Hout; destruct (object_count b >? 1000); cbn [app length List.filter].
  all: repeat split; try lia; cbn; try lia.
  all: try (intros [(r1 & Hin1 & Hr1) (r2 & Hin2 & Hr2)]; cbn [In] in *;
            intuition (subst; discriminate)).
  all: intros [|[|i]] [|[|j]] ri rj Hi Hj Hv Hm; cbn in Hi, Hj;
    try discriminate; try lia;
    inversion Hi; inversion Hj; subst; discriminate.
Qed.

(** ** Claims about a whole bucket analysis *)

Lemma list_sum_sizes_nonneg (blobs : list Blob) :
  Forall (fun blob => 0 <= blob_size blob) blobs -> 0 <= list_sum_sizes blobs.
Proof.
  induction 1 as [|blob blobs Hb _ IH]; cbn [list_sum_sizes]; lia.
Qed.

(** [_analyze_bucket] never raises: the snapshot it hands to the engine and
    the state it leaves. *)
Lemma analyze_bucket_result (now : Z) (blobs : list Blob)
    (self : GCSCostOptimizer) (bucket : Bucket) :
  exists bd main cost,
    snapshot now bucket blobs = Some bd
    /\ size_bytes bd = list_sum_sizes blobs
    /\ current_cost bd =
         (sizeGB bd * Py.get STORAGE_CLASS_PRICING (storage_class bd) 0.020)%Q
    /\ main_outcome bd main cost
    /\ _analyze_bucket now blobs self bucket =
         Some {| buckets_data := (buckets_data self ++ [analysed bd main cost])%list;
                 total_current_cost := (total_current_cost self + current_cost bd)%Q;
                 total_optimized_cost := (total_optimized_cost self + cost)%Q |}.
Proof.
  destruct (snapshot_result now bucket blobs) as (counts & _ & Hsnap).
  eexists. unfold _analyze_bucket. rewrite Hsnap. cbn [mbind option_bind].
  match goal with
  | |- context [_generate_recommendations ?s ?b] =>
      destruct (generate_outcome s b) as (main & cost & Hout & Hgen); rewrite Hgen
  end.
  exists main, cost. repeat split. exact Hout.
Qed.

(** The loop of [analyze_storage] never raises either. *)
Lemma analyze_storage_returns (buckets : list (Z * Bucket * list Blob)) :
  forall self, is_Some (analyze_storage self buckets).
Proof.
  induction buckets as [|[[now bucket] blobs] rest IH]; intros self.
  - cbn. eauto.
  - cbn [analyze_storage].
    destruct (analyze_bucket_result now blobs self bucket)
      as (bd & main & cost & _ & _ & _ & _ & ->).
    cbn [mbind option_bind]. apply IH.
Qed.

(** C1: when no object has a negative size, the analysed bucket's optimized
    cost is at most its current cost, its savings field is the current cost
    minus the optimized cost, and so the savings are not negative. *)
Theorem optimized_cost_le_current_cost (now : Z) (blobs : list Blob)
    (self : GCSCostOptimizer) (bucket : Bucket) :
  Forall (fun blob => 0 <= blob_size blob) blobs ->
  exists self' bd,
    _analyze_bucket now blobs self bucket = Some self'
    /\ buckets_data self' = (buckets_data self ++ [bd])%list
    /\ (optimized_cost bd <= current_cost bd)%Q
    /\ savings bd = (current_cost bd - optimized_cost bd)%Q
    /\ (0 <= savings bd)%Q.
Proof.
  intros Hsizes.
  destruct (analyze_bucket_result now blobs self bucket)
    as (bd & main & cost & _ & Hsize & Hcost & Hout & Hrun).
  eexists _, (analysed bd main cost). split; [exact Hrun|].
  split; [reflexivity|].
  assert (Hgb : (0 <= sizeGB bd)%Q).
  { apply sizeGB_nonneg. rewrite Hsize. now apply list_sum_sizes_nonneg. }
  pose proof (current_rate_positive (storage_class bd)) as Hpos.
  assert (Hle : (cost <= current_cost bd)%Q).
  { destruct Hout as [rate Hstd _ Hrate | _ _ | _ _].
    - destruct (target_class_priced bd) as (rate' & Hrate' & _ & Hcheap).
      rewrite Hrate in Hrate'. injection Hrate' as <-.
      rewrite Hcost, Hstd, standard_rate_charged. nra.
    - rewrite Hcost in *. nra.
    - apply Qle_refl. }
  cbn [optimized_cost current_cost savings analysed].
  split; [exact Hle|]. split; [reflexivity|]. lra.
Qed.

Lemma optimized_cost_le_current_cost_witness :
  Forall (fun blob => 0 <= blob_size blob) sample_blobs
  /\ exists self' bd,
       _analyze_bucket (1000 * day) sample_blobs init (sample_bucket "STANDARD") = Some self'
       /\ buckets_data self' = [bd]
       /\ (optimized_cost bd <= current_cost bd)%Q.
Proof.
  assert (H : Forall (fun blob => 0 <= blob_size blob) sample_blobs).
  { repeat constructor; cbn; lia. }
  split; [exact H|].
  destruct (optimized_cost_le_current_cost (1000 * day) sample_blobs init
              (sample_bucket "STANDARD") H)
    as (self' & bd & Hrun & Hlist & Hle & _).
  exists self', bd. repeat split; assumption.
Defined.

(** C7: no division of the analysis raises.  The cold ratio divides by
    [max(object_count, 1)], which is at least 1; the savings percentages of a
    bucket and of the totals divide by [max(cost, 0.01)], which is at least
    0.01; the scan of a bucket, and of all buckets, always returns.  With no objects the ratio is
    the count over 1, with no cost the percentage is the savings over 0.01. *)
Theorem divisions_are_guarded :
  (forall b,
      1 <= Z.max (object_count b) 1
      /\ cold_ratio_of b =
           Some (inject_Z (rare b + cold b) / inject_Z (Z.max (object_count b) 1))%Q)
  /\ (forall b,
        (0.01 <= Py.max (current_cost b) 0.01)%Q
        /\ bucket_savings_percent b =
             Some (savings b / Py.max (current_cost b) 0.01 * 100)%Q)
  /\ (forall self,
        (0.01 <= Py.max (total_current_cost self) 0.01)%Q
        /\ total_savings_percent self =
             Some ((total_current_cost self - total_optimized_cost self)
                   / Py.max (total_current_cost self) 0.01 * 100)%Q)
  /\ (forall b, size_gb_of b = Some (inject_Z (size_bytes b) / inject_Z (1024 ^ 3))%Q)
  /\ (forall now blobs self bucket,
        is_Some (_analyze_bucket now blobs self bucket))
  /\ (forall self buckets, is_Some (analyze_storage self buckets))
  /\ (forall b,
        object_count b = 0 ->
        cold_ratio_of b = Some (inject_Z (rare b + cold b) / inject_Z 1)%Q)
  /\ (forall b,
        (current_cost b == 0)%Q ->
        bucket_savings_percent b = Some (savings b / 0.01 * 100)%Q).
Proof.
  assert (Hfloor : forall c, ~ (Py.max c 0.01 == 0)%Q).
  { intros c H. pose proof (max_floor c 0.01). lra. }
  split; [|split; [|split; [|split; [|split; [|split; [|split]]]]]].
  - intros b. split; [lia | apply cold_ratio_of_total].
  - intros b. split; [apply max_floor|].
    unfold bucket_savings_percent. now rewrite truediv_nonzero by apply Hfloor.
  - intros self. split; [apply max_floor|].
    unfold total_savings_percent. now rewrite truediv_nonzero by apply Hfloor.
  - apply size_gb_of_total.
  - intros now blobs self bucket.
    destruct (analyze_bucket_result now blobs self bucket)
      as (bd & main & cost & _ & _ & _ & _ & ->).
    eauto.
  - intros self buckets. apply analyze_storage_returns.
  - intros b Hz. rewrite cold_ratio_of_total. unfold coldRatio.
    rewrite Hz. reflexivity.
  - intros b Hz. unfold bucket_savings_percent.
    rewrite truediv_nonzero by apply Hfloor. cbn [mbind option_bind].
    unfold Py.max. replace (Py.gt 0.01 (current_cost b)) with true; [reflexivity|].
    symmetry. apply gt_true. lra.
Qed.

(** ** Determinism and the apply engine *)

Lemma snapshot_cost (now : Z) (bucket : Bucket) (blobs : list Blob) (bd : BucketData) :
  snapshot now bucket blobs = Some bd ->
  current_cost bd =
    (sizeGB bd * Py.get STORAGE_CLASS_PRICING (storage_class bd) 0.020)%Q.
Proof.
  intros H. destruct (snapshot_result now bucket blobs) as (counts & _ & Hsnap).
  rewrite Hsnap in H. injection H as <-. reflexivity.
Qed.

Lemma main_outcome_functional (b1 b2 : BucketData)
    (main1 main2 : list recommendation) (cost1 cost2 : Q) :
  same_inputs b1 b2 ->
  main_outcome b1 main1 cost1 ->
  main_outcome b2 main2 cost2 ->
  main1 = main2 /\ cost1 = cost2.
Proof.
  intros (Hsize & Hcls & Hcount & Hfreq & Hcost) H1 H2.
  assert (Hrare : rare b1 = rare b2) by apply (Hfreq Rare).
  assert (Hcoldc : cold b1 = cold b2) by apply (Hfreq Cold).
  assert (Hgb : sizeGB b1 = sizeGB b2) by (unfold sizeGB; now rewrite Hsize).
  assert (Hratio : coldRatio b1 = coldRatio b2)
    by (unfold coldRatio; now rewrite Hrare, Hcoldc, Hcount).
  assert (Htarget : target_class b1 = target_class b2).
  { unfold target_class, coldest_class. rewrite Hratio.
    change (Py.get (access_frequency b1) "cold" 0) with (cold b1).
    change (Py.get (access_frequency b1) "rare" 0) with (rare b1).
    now rewrite Hrare, Hcoldc. }
  destruct H1 as [rate1 Hstd1 H71 Hrate1 | Hno1 H31 | Hno1 H31];
    destruct H2 as [rate2 Hstd2 H72 Hrate2 | Hno2 H32 | Hno2 H32].
  all: try (exfalso; rewrite ?Hratio, ?Hcls in *;
            solve [ lra | destruct Hno1; [contradiction | lra]
                  | destruct Hno2; [contradiction | lra] ]).
  - rewrite Htarget, Hrate2 in Hrate1. injection Hrate1 as ->.
    unfold tier_rec. now rewrite Hcls, Htarget, Hcost, Hgb.
  - unfold lifecycle_rec. now rewrite Hcost.
  - now rewrite Hcost.
Qed.

(** C9: the engine's answer depends on the bucket state alone.  Two scans
    that find the same size, storage class, object count and cohort counts,
    whatever the bucket names, the clock readings and the running totals,
    get the same recommendations, optimized cost and savings; and the engine
    run again on its own result returns that result. *)
Theorem analysis_is_deterministic
    (now1 now2 : Z) (bucket1 bucket2 : Bucket) (blobs1 blobs2 : list Blob)
    (self1 self2 : GCSCostOptimizer) (bd1 bd2 : BucketData) :
  snapshot now1 bucket1 blobs1 = Some bd1 ->
  snapshot now2 bucket2 blobs2 = Some bd2 ->
  size_bytes bd1 = size_bytes bd2 ->
  storage_class bd1 = storage_class bd2 ->
  object_count bd1 = object_count bd2 ->
  (forall c, count_of c (access_frequency bd1) = count_of c (access_frequency bd2)) ->
  exists self1' self2' self1'' r1 r2,
    _generate_recommendations self1 bd1 = Some (self1', r1)
    /\ _generate_recommendations self2 bd2 = Some (self2', r2)
    /\ recommendations r1 = recommendations r2
    /\ optimized_cost r1 = optimized_cost r2
    /\ savings r1 = savings r2
    /\ current_cost r1 = current_cost r2
    /\ _generate_recommendations self1' r1 = Some (self1'', r1).
Proof.
  intros Hs1 Hs2 Hsize Hcls Hcount Hfreq.
  assert (Hcost : current_cost bd1 = current_cost bd2).
  { rewrite (snapshot_cost _ _ _ _ Hs1), (snapshot_cost _ _ _ _ Hs2).
    unfold sizeGB. now rewrite Hsize, Hcls. }
  destruct (generate_outcome self1 bd1) as (main1 & cost1 & Hout1 & Hgen1).
  destruct (generate_outcome self2 bd2) as (main2 & cost2 & Hout2 & Hgen2).
  destruct (main_outcome_functional bd1 bd2 main1 main2 cost1 cost2) as [-> ->];
    [now repeat split | assumption | assumption |].
  match type of Hgen1 with
  | _ = Some (?s, ?r) =>
      destruct (generate_outcome s r) as (main3 & cost3 & Hout3 & Hgen3)
  end.
  destruct (main_outcome_functional (analysed bd1 main2 cost2) bd2
              main3 main2 cost3 cost2) as [-> ->];
    [now repeat split | assumption | assumption |].
  eexists _, _, _, _, _.
  split; [exact Hgen1|]. split; [exact Hgen2|].
  cbn [recommendations optimized_cost savings current_cost analysed].
  unfold versioning_tail. rewrite Hcount, Hcost.
  repeat split. exact Hgen3.
Qed.

Lemma analysis_is_deterministic_witness :
  snapshot (1000 * day) (sample_bucket "STANDARD") sample_blobs = Some sample_snapshot_logs
  /\ snapshot (1000 * day) media_bucket (rev sample_blobs) = Some sample_snapshot_media
  /\ exists self1' self2' r1 r2,
       _generate_recommendations init sample_snapshot_logs = Some (self1', r1)
       /\ _generate_recommendations busy_optimizer sample_snapshot_media = Some (self2', r2)
       /\ recommendations r1 = recommendations r2
       /\ optimized_cost r1 = optimized_cost r2.
Proof.
  assert (H1 : snapshot (1000 * day) (sample_bucket "STANDARD") sample_blobs
               = Some sample_snapshot_logs) by (vm_compute; reflexivity).
  assert (H2 : snapshot (1000 * day) media_bucket (rev sample_blobs)
               = Some sample_snapshot_media) by (vm_compute; reflexivity).
  split; [exact H1|]. split; [exact H2|].
  destruct (analysis_is_deterministic _ _ _ _ _ _ init busy_optimizer _ _ H1 H2)
    as (s1 & s2 & _ & r1 & r2 & Hg1 & Hg2 & Hrecs & Hopt & _).
  - reflexivity.
  - reflexivity.
  - reflexivity.
  - intros []; vm_compute; reflexivity.
  - exists s1, s2, r1, r2. repeat split; assumption.
Defined.

Lemma target_class_cases (b : BucketData) :
  target_class b = "ARCHIVE" \/ target_class b = "COLDLINE"
  \/ target_class b = "NEARLINE".
Proof.
  unfold target_class. destruct (Py.gt (coldRatio b) 0.9); [|tauto].
  destruct (coldest_class_cases (access_frequency b)) as [[_ ->]|[_ ->]]; tauto.
Qed.

(** What the apply engine reads back from the action text of a tier
    change of a STANDARD bucket. *)
Lemma parsed_target (b : BucketData) (rate : Q) :
  storage_class b = "STANDARD" ->
  Py.last_item (Py.split " " (rec_action (tier_rec b (target_class b) rate)))
    = Some (target_class b).
Proof.
  intros Hstd. cbn [rec_action tier_rec]. rewrite Hstd.
  destruct (target_class_cases b) as [-> | [-> | ->]]; vm_compute; reflexivity.
Qed.

(** The versioning branch of the apply engine only prints. *)
Lemma apply_one_versioning (bucket_name : string) (cloud : gmap string RemoteBucket) :
  apply_one bucket_name versioning_rec cloud = Some cloud.
Proof. reflexivity. Qed.

(** C10: for every tier-change recommendation the engine emits, the last
    space-separated word of the action text is the storage class whose rate
    gave the recommendation's savings and the bucket's optimized cost; the
    apply engine, which reads the class from that text, sets the bucket's
    default storage class to it. *)
Theorem apply_patches_the_priced_class (self : GCSCostOptimizer) (b : BucketData) :
  exists self' b',
    _generate_recommendations self b = Some (self', b')
    /\ forall r,
         In r (recommendations b') ->
         is_tier_change r = true ->
         exists new_class rate,
           Py.last_item (Py.split " " (rec_action r)) = Some new_class
           /\ STORAGE_CLASS_PRICING !! new_class = Some rate
           /\ rec_savings r = (current_cost b - sizeGB b * rate)%Q
           /\ optimized_cost b' = (sizeGB b * rate)%Q
           /\ (forall (cloud : gmap string RemoteBucket) (remote : RemoteBucket),
                 cloud !! bd_name b' = Some remote ->
                 apply_one (bd_name b') r cloud =
                   Some (<[bd_name b' :=
                            {| remote_storage_class := new_class;
                               remote_lifecycle_rules := remote_lifecycle_rules remote |}]>
                           cloud))
           /\ (forall (cloud : gmap string RemoteBucket) (remote : RemoteBucket)
                      (inputs : list string),
                 cloud !! bd_name b' = Some remote ->
                 exists cloud',
                   apply_bucket true (bd_name b') (recommendations b') (cloud, inputs)
                     = Some (cloud', inputs)
                   /\ remote_storage_class <$> cloud' !! bd_name b' = Some new_class).
Proof.
  destruct (generate_outcome self b) as (main & cost & Hout & Hgen).
  eexists _, _. split; [exact Hgen|].
  intros r Hin Hr. apply in_analysed in Hin.
  destruct Hout as [rate Hstd _ Hrate | _ _ | _ _];
    destruct Hin as [Hin | [_ ->]]; try discriminate Hr;
    cbn [In] in Hin; try contradiction.
  2: { destruct Hin as [<-|[]]. discriminate Hr. }
  destruct Hin as [<-|[]].
  pose proof (parsed_target b rate Hstd) as Hparse.
  assert (Hone : forall (cloud : gmap string RemoteBucket) remote,
             cloud !! bd_name b = Some remote ->
             apply_one (bd_name b) (tier_rec b (target_class b) rate) cloud =
               Some (<[bd_name b :=
                        {| remote_storage_class := target_class b;
                           remote_lifecycle_rules := remote_lifecycle_rules remote |}]>
                       cloud)).
  { intros cloud remote Hc. unfold apply_one.
    change (rec_type (tier_rec b (target_class b) rate)) with "storage_class".
    change (String.eqb "storage_class" "storage_class") with true. cbv iota.
    rewrite Hc. cbn [mbind option_bind]. rewrite Hparse. reflexivity. }
  exists (target_class b), rate.
  split; [exact Hparse|]. split; [exact Hrate|].
  split; [reflexivity|]. split; [reflexivity|].
  cbn [bd_name recommendations analysed].
  split; [exact Hone|].
  intros cloud remote inputs Hc. eexists.
  unfold versioning_tail.
  destruct (object_count b >? 1000); cbn [app apply_bucket];
    unfold try_apply; rewrite (Hone cloud remote Hc), ?apply_one_versioning;
    cbn [default from_option id].
  - split; [reflexivity|]. now rewrite lookup_insert_eq.
  - split; [reflexivity|]. now rewrite lookup_insert_eq.
Qed.

(** ** The engine on the buckets of the test plan *)

Example all_cold_goes_to_archive :
  outline (_generate_recommendations init
             (sample_data "STANDARD" (100 * 1024 ^ 3) 10 0 10))
  = Some (["Change storage class from STANDARD to ARCHIVE"], (3 # 25)%Q).
Proof. vm_compute. reflexivity. Qed.

Example all_rare_goes_to_coldline :
  outline (_generate_recommendations init
             (sample_data "STANDARD" (100 * 1024 ^ 3) 10 10 0))
  = Some (["Change storage class from STANDARD to COLDLINE"], (2 # 5)%Q).
Proof. vm_compute. reflexivity. Qed.

Example mostly_cold_goes_to_nearline :
  outline (_generate_recommendations init
             (sample_data "STANDARD" (100 * 1024 ^ 3) 10 4 4))
  = Some (["Change storage class from STANDARD to NEARLINE"], 1%Q).
Proof. vm_compute. reflexivity. Qed.

Example half_cold_gets_lifecycle :
  outline (_generate_recommendations init
             (sample_data "STANDARD" (100 * 1024 ^ 3) 10 3 2))
  = Some ([lifecycle_action], (7 # 5)%Q).
Proof. vm_compute. reflexivity. Qed.

Example warm_is_left_alone :
  outline (_generate_recommendations init
             (sample_data "STANDARD" (100 * 1024 ^ 3) 10 1 0))
  = Some ([], 2%Q).
Proof. vm_compute. reflexivity. Qed.

Example many_objects_get_versioning_review :
  outline (_generate_recommendations init
             (sample_data "STANDARD" (100 * 1024 ^ 3) 1500 0 1500))
  = Some (["Change storage class from STANDARD to ARCHIVE";
           "Review object versioning settings"], (3 # 25)%Q).
Proof. vm_compute. reflexivity. Qed.

Example seven_tenths_is_not_above :
  outline (_generate_recommendations init
             (sample_data "STANDARD" (100 * 1024 ^ 3) 10 7 0))
  = Some ([lifecycle_action], (7 # 5)%Q).
Proof. vm_compute. reflexivity. Qed.

Example scan_of_sample :
  map_to_list (access_frequency sample_snapshot_logs)
  = [("cold", 2); ("medium", 1); ("recent", 1); ("rare", 2)].
Proof. vm_compute. reflexivity. Qed.

(** The apply engine with confirmation: the tier change is declined, the
    versioning review accepted; nothing is patched and both answers are
    consumed. *)
Example declined_tier_change :
  apply_bucket false "logs"
    [tier_rec (sample_data "STANDARD" 0 0 0 0) "ARCHIVE" 0.0012; versioning_rec]
    (sample_cloud, ["n"; "Y"; "y"])
  = Some (sample_cloud, ["y"]).
Proof. vm_compute. reflexivity. Qed.

Example accepted_tier_change :
  remote_storage_class <$>
    (fst <$> apply_bucket false "logs"
               [tier_rec (sample_data "STANDARD" 0 0 0 0) "ARCHIVE" 0.0012]
               (sample_cloud, ["Y"])) ≫= (.!! "logs")
  = Some "ARCHIVE".
Proof. vm_compute. reflexivity. Qed.

(** Reading past the end of the input raises. *)
Example input_exhausted :
  apply_bucket false "logs" [versioning_rec] (sample_cloud, []) = None.
Proof. reflexivity. Qed.


(** * Further properties *)

(** ** The scan, cohort by cohort *)

Lemma hit_nonneg (c c' : cohort) : 0 <= hit c c'.
Proof. destruct c, c'; cbn; lia. Qed.

Lemma cohort_size_nonneg (now : Z) (c : cohort) (blobs : list Blob) :
  0 <= cohort_size now c blobs.
Proof.
  induction blobs as [|blob blobs IH]; cbn [cohort_size]; [lia|].
  destruct (time_created blob) as [t|]; [pose proof (hit_nonneg c (classify now t))|]; lia.
Qed.

Lemma cohort_size_sum (now : Z) (blobs : list Blob) :
  cohort_size now Recent blobs + cohort_size now Medium blobs
  + cohort_size now Rare blobs + cohort_size now Cold blobs
  = Z.of_nat (length blobs) - untimed blobs.
Proof.
  unfold untimed.
  induction blobs as [|blob blobs IH]; cbn [cohort_size length List.filter]; [reflexivity|].
  unfold lacks_timestamp at 1.
  destruct (time_created blob) as [t|]; cbn [length].
  - pose proof (hit_total (classify now t)). lia.
  - lia.
Qed.

Lemma cohort_size_Permutation (now : Z) (c : cohort) (blobs1 blobs2 : list Blob) :
  Permutation blobs1 blobs2 -> cohort_size now c blobs1 = cohort_size now c blobs2.
Proof.
  induction 1 as [| blob l1 l2 _ IH | x y l | l1 l2 l3 _ IH1 _ IH2];
    cbn [cohort_size]; lia.
Qed.

Lemma list_sum_sizes_Permutation (blobs1 blobs2 : list Blob) :
  Permutation blobs1 blobs2 -> list_sum_sizes blobs1 = list_sum_sizes blobs2.
Proof.
  induction 1 as [| blob l1 l2 _ IH | x y l | l1 l2 l3 _ IH1 _ IH2];
    cbn [list_sum_sizes]; lia.
Qed.

Lemma initial_count (c : cohort) : count_of c initial_access_counts = 0.
Proof. destruct c; vm_compute; reflexivity. Qed.

Lemma initial_dom : dom initial_access_counts = cohort_keys.
Proof.
  unfold initial_access_counts, cohort_keys.
  rewrite !dom_insert_L, dom_singleton_L. set_solver.
Qed.

Lemma cohort_keys_spec (k : string) :
  k ∈ cohort_keys <-> exists c, k = cohort_key c.
Proof.
  unfold cohort_keys. split.
  - rewrite !elem_of_union, !elem_of_singleton.
    intros [[[-> | ->] | ->] | ->];
      [exists Recent | exists Medium | exists Rare | exists Cold]; reflexivity.
  - intros [[] ->]; cbn [cohort_key]; set_solver.
Qed.

(** The loop, cohort by cohort: each count grows by the number of objects
    of that cohort, and no key is added to the dict. *)
Lemma scan_blobs_counts (now : Z) (blobs : list Blob) :
  forall (total : Z) (counts : gmap string Z),
    has_cohorts counts ->
    exists counts',
      scan_blobs now (total, counts) blobs
        = Some (total + list_sum_sizes blobs, counts')
      /\ has_cohorts counts'
      /\ dom counts' = dom counts
      /\ forall c, count_of c counts' = count_of c counts + cohort_size now c blobs.
Proof.
  induction blobs as [|blob blobs IH]; intros total counts Hm.
  - exists counts. cbn [scan_blobs list_sum_sizes cohort_size].
    rewrite Z.add_0_r. repeat split; auto; intros c; lia.
  - cbn [scan_blobs list_sum_sizes cohort_size]. rewrite scan_blob_eq.
    destruct (time_created blob) as [t|].
    + destruct (Hm (classify now t)) as [v Hv].
      unfold Py.incr, Py.getitem. rewrite Hv. cbn [mbind option_bind].
      assert (Hm1 : has_cohorts (<[cohort_key (classify now t) := v + 1]> counts)).
      { intros c. rewrite lookup_insert. case_decide; [eauto | apply Hm]. }
      destruct (IH (total + blob_size blob) _ Hm1) as (m' & Hs & Hm' & Hdom & Hc).
      exists m'. rewrite Hs, Z.add_assoc.
      split; [reflexivity|]. split; [exact Hm'|]. split.
      * rewrite Hdom. apply dom_insert_lookup_L. eauto.
      * intros c. rewrite Hc.
        destruct (incr_cohort counts (classify now t) Hm) as (m1 & Hincr & _ & Hc1).
        unfold Py.incr, Py.getitem in Hincr. rewrite Hv in Hincr.
        cbn [mbind option_bind] in Hincr. injection Hincr as <-.
        rewrite Hc1. lia.
    + cbn [mbind option_bind].
      destruct (IH (total + blob_size blob) counts Hm) as (m' & Hs & Hm' & Hdom & Hc).
      exists m'. rewrite Hs, Z.add_assoc. repeat split; auto;
        intros c; rewrite Hc; lia.
Qed.

(** Two [access_counts] dicts with the keys of the initial one and the
    same four counts are the same dict. *)
Lemma access_counts_ext (m1 m2 : gmap string Z) :
  has_cohorts m1 -> has_cohorts m2 ->
  dom m1 = cohort_keys -> dom m2 = cohort_keys ->
  (forall c, count_of c m1 = count_of c m2) ->
  m1 = m2.
Proof.
  intros H1 H2 D1 D2 Hc. apply map_eq. intros k.
  destruct (decide (k ∈ cohort_keys)) as [Hk|Hk].
  - apply cohort_keys_spec in Hk as [c ->].
    specialize (Hc c). unfold count_of, Py.get in Hc.
    destruct (H1 c) as [v1 E1], (H2 c) as [v2 E2].
    rewrite E1, E2 in Hc |- *. cbn in Hc. now subst.
  - assert (m1 !! k = None) as -> by (apply not_elem_of_dom; now rewrite D1).
    symmetry. apply not_elem_of_dom. now rewrite D2.
Qed.

(** The snapshot with every field spelled out. *)
Lemma snapshot_counts (now : Z) (bucket : Bucket) (blobs : list Blob) :
  exists counts,
    has_cohorts counts
    /\ dom counts = cohort_keys
    /\ (forall c, count_of c counts = cohort_size now c blobs)
    /\ snapshot now bucket blobs =
         Some {| bd_name := bucket_name bucket;
                 bd_location := bucket_location bucket;
                 storage_class := bucket_storage_class bucket;
                 size_bytes := list_sum_sizes blobs;
                 object_count := Z.of_nat (length blobs);
                 access_frequency := counts;
                 last_accessed := ∅;
                 current_cost :=
                   (inject_Z (list_sum_sizes blobs) / inject_Z (1024 ^ 3)
                    * Py.get STORAGE_CLASS_PRICING (bucket_storage_class bucket) 0.020)%Q;
                 recommendations := [];
                 optimized_cost := 0%Q;
                 savings := 0%Q |}.
Proof.
  destruct (scan_blobs_counts now blobs 0 initial_access_counts initial_has_cohorts)
    as (counts & Hscan & Hm & Hdom & Hc).
  exists counts. split; [exact Hm|]. split; [now rewrite Hdom, initial_dom|].
  split.
  { intros c. rewrite Hc, initial_count. lia. }
  unfold snapshot. cbn [size_bytes set_object_count].
  rewrite Hscan. cbn [mbind option_bind].
  rewrite size_gb_of_total. cbn [mbind option_bind].
  unfold Py.getitem at 1. rewrite pricing_standard. cbn [mbind option_bind].
  reflexivity.
Qed.

(** X1: after the scan, the size is the sum of the object sizes, the object
    count is the length of the listing, the dict has exactly the four cohort
    keys, and each count is the number of listed objects that have a creation
    time and fall in that cohort. *)
Theorem scan_counts_each_cohort (now : Z) (bucket : Bucket) (blobs : list Blob) :
  exists bd,
    snapshot now bucket blobs = Some bd
    /\ size_bytes bd = list_sum_sizes blobs
    /\ object_count bd = Z.of_nat (length blobs)
    /\ dom (access_frequency bd) = cohort_keys
    /\ forall c, Py.getitem (access_frequency bd) (cohort_key c)
                 = Some (cohort_size now c blobs).
Proof.
  destruct (snapshot_counts now bucket blobs) as (counts & Hm & Hdom & Hc & Hsnap).
  eexists. split; [exact Hsnap|]. cbn [size_bytes object_count access_frequency].
  repeat split; auto.
  intros c. specialize (Hc c). unfold count_of, Py.get in Hc. unfold Py.getitem.
  destruct (Hm c) as [v Hv]. rewrite Hv in Hc |- *. cbn in Hc. now subst.
Qed.

(** X2: for a scanned bucket no count is negative, rare plus cold is at
    most the object count, and the cold ratio lies between 0 and 1. *)
Theorem scanned_cold_ratio_in_unit_interval (now : Z) (bucket : Bucket)
    (blobs : list Blob) :
  exists bd,
    snapshot now bucket blobs = Some bd
    /\ (forall c, 0 <= count_of c (access_frequency bd))
    /\ rare bd + cold bd <= object_count bd
    /\ (0 <= coldRatio bd)%Q
    /\ (coldRatio bd <= 1)%Q.
Proof.
  destruct (snapshot_counts now bucket blobs) as (counts & Hm & Hdom & Hc & Hsnap).
  eexists. split; [exact Hsnap|].
  assert (Hnn : forall c, 0 <= count_of c counts).
  { intros c. rewrite Hc. apply cohort_size_nonneg. }
  assert (Hle : count_of Rare counts + count_of Cold counts
                <= Z.of_nat (length blobs)).
  { pose proof (cohort_size_sum now blobs) as Hsum. rewrite <- !Hc in Hsum.
    pose proof (Hnn Recent). pose proof (Hnn Medium).
    assert (0 <= untimed blobs) by (unfold untimed; lia). lia. }
  unfold coldRatio, rare, cold. cbn [access_frequency object_count].
  change (Py.get counts "rare" 0) with (count_of Rare counts) in *.
  change (Py.get counts "cold" 0) with (count_of Cold counts) in *.
  pose proof (Hnn Rare). pose proof (Hnn Cold).
  split; [exact Hnn|]. split; [exact Hle|].
  assert (Hpos : (0 < inject_Z (Z.max (Z.of_nat (length blobs)) 1))%Q).
  { unfold Qlt, inject_Z. cbn. lia. }
  split.
  - apply Qle_shift_div_l; [exact Hpos|]. rewrite Qmult_0_l.
    unfold Qle, inject_Z. cbn. lia.
  - apply Qle_shift_div_r; [exact Hpos|]. rewrite Qmult_1_l.
    unfold Qle, inject_Z. cbn. lia.
Qed.

(** X3: the scan does not depend on the order in which the provider lists
    the objects: listings that are permutations of each other give the same
    snapshot. *)
Theorem scan_is_order_independent (now : Z) (bucket : Bucket)
    (blobs1 blobs2 : list Blob) :
  Permutation blobs1 blobs2 ->
  snapshot now bucket blobs1 = snapshot now bucket blobs2.
Proof.
  intros Hperm.
  destruct (snapshot_counts now bucket blobs1) as (m1 & Hm1 & Hd1 & Hc1 & ->).
  destruct (snapshot_counts now bucket blobs2) as (m2 & Hm2 & Hd2 & Hc2 & ->).
  assert (m1 = m2) as ->.
  { apply access_counts_ext; auto. intros c.
    rewrite Hc1, Hc2. now apply cohort_size_Permutation. }
  rewrite (list_sum_sizes_Permutation _ _ Hperm), (Permutation_length Hperm).
  reflexivity.
Qed.

Lemma scan_is_order_independent_witness :
  Permutation sample_blobs (rev sample_blobs)
  /\ snapshot (1000 * day) media_bucket sample_blobs
     = snapshot (1000 * day) media_bucket (rev sample_blobs).
Proof.
  split; [apply Permutation_rev|].
  apply (scan_is_order_independent (1000 * day) media_bucket
           sample_blobs (rev sample_blobs)).
  apply Permutation_rev.
Defined.

(** X4: an older object never lands in a younger cohort, and the cohort
    depends on the age alone: moving the clock and the creation time by the
    same amount changes nothing. *)
Theorem classify_by_age (now created1 created2 shift : Z) :
  created1 <= created2 ->
  cohort_rank (classify now created2) <= cohort_rank (classify now created1)
  /\ classify (now + shift) (created1 + shift) = classify now created1.
Proof.
  intros Hle. unfold classify, timedelta_days.
  repeat match goal with
         | |- context [?a >? ?b] => destruct (Z.gtb_spec a b)
         end; cbn [cohort_rank]; split; try reflexivity; lia.
Qed.

Lemma classify_by_age_witness :
  635 * day <= 970 * day
  /\ cohort_rank (classify (1000 * day) (970 * day))
     <= cohort_rank (classify (1000 * day) (635 * day)).
Proof.
  assert (H : 635 * day <= 970 * day) by (vm_compute; discriminate).
  split; [exact H|].
  exact (proj1 (classify_by_age (1000 * day) (635 * day) (970 * day) 0 H)).
Defined.

(** ** The rule engine, beyond the three rules *)

Lemma max_left (a b : Q) : (a <= Py.max a b)%Q.
Proof.
  unfold Py.max. destruct (Py.gt b a) eqn:E; [|apply Qle_refl].
  apply gt_true in E. now apply Qlt_le_weak.
Qed.

(** The three rates a tier change can move to. *)
Lemma target_class_rate (b : BucketData) (rate : Q) :
  STORAGE_CLASS_PRICING !! target_class b = Some rate ->
  (target_class b = "ARCHIVE" /\ rate = 0.0012%Q
   /\ (0.9 < coldRatio b)%Q /\ cold b > rare b)
  \/ (target_class b = "COLDLINE" /\ rate = 0.004%Q
      /\ (0.9 < coldRatio b)%Q /\ cold b <= rare b)
  \/ (target_class b = "NEARLINE" /\ rate = 0.010%Q /\ (coldRatio b <= 0.9)%Q).
Proof.
  unfold target_class, cold, rare.
  destruct (Py.gt (coldRatio b) 0.9) eqn:H9;
    [apply gt_true in H9 | apply gt_false in H9].
  - destruct (coldest_class_cases (access_frequency b)) as [[Hc ->]|[Hc ->]].
    + rewrite pricing_archive. intros [= <-]. left. auto.
    + rewrite pricing_coldline. intros [= <-]. right. left. auto.
  - rewrite pricing_nearline. intros [= <-]. right. right. auto.
Qed.

(** X5: the engine writes [recommendations], [optimized_cost] and [savings]
    and nothing else of [bucket_data]: putting the three old values back
    gives the input.  Of [self] it only adds the optimized cost to its
    running total. *)
Theorem engine_writes_three_fields (self : GCSCostOptimizer) (b : BucketData) :
  exists self' b',
    _generate_recommendations self b = Some (self', b')
    /\ set_savings (savings b)
         (set_optimized_cost (optimized_cost b)
            (set_recommendations (recommendations b) b')) = b
    /\ buckets_data self' = buckets_data self
    /\ total_current_cost self' = total_current_cost self
    /\ total_optimized_cost self' =
         (total_optimized_cost self + optimized_cost b')%Q.
Proof.
  destruct (generate_outcome self b) as (main & cost & _ & Hgen).
  eexists _, _. split; [exact Hgen|].
  destruct b. repeat split.
Qed.

(** X7: a tier change is recommended only to a STANDARD bucket whose cold
    ratio exceeds 0.7, and the list is empty exactly when the ratio is at
    most 0.3 and there are at most 1000 objects; with a ratio of at most 0.3
    the optimized cost is the current cost. *)
Theorem when_the_engine_recommends (self : GCSCostOptimizer) (b : BucketData) :
  exists self' b',
    _generate_recommendations self b = Some (self', b')
    /\ ((exists r, In r (recommendations b') /\ is_tier_change r = true)
        <-> storage_class b = "STANDARD" /\ (0.7 < coldRatio b)%Q)
    /\ (recommendations b' = []
        <-> (coldRatio b <= 0.3)%Q /\ object_count b <= 1000)
    /\ ((coldRatio b <= 0.3)%Q -> optimized_cost b' = current_cost b).
Proof.
  destruct (generate_outcome self b) as (main & cost & Hout & Hgen).
  eexists _, _. split; [exact Hgen|].
  cbn [recommendations optimized_cost analysed]. unfold versioning_tail.
  destruct Hout as [rate Hstd H7 Hrate | Hno H3 | Hno H3];
    destruct (Z.gtb_spec (object_count b) 1000) as [Hmany|Hfew];
    cbn [app].
  all: split; [split|split; [split|]].
  all: try (intros (r & Hin & Hr); cbn [In] in Hin;
            repeat (destruct Hin as [<-|Hin]; [try discriminate Hr|]);
            try contradiction).
  all: try discriminate.
  all: try (intros [? ?]; exfalso; solve [lia | lra | destruct Hno; [contradiction|lra]]).
  all: try (intros; exfalso; lra).
  all: try (intros; split; solve [assumption | lia | lra]).
  all: try reflexivity.
  all: try (intros _; eexists; split; [left; reflexivity | reflexivity]).
Qed.

Lemma percent_bounds (s m k : Q) :
  (0 < m)%Q -> (0 <= s)%Q -> (s <= k * m)%Q ->
  (0 <= s / m * 100)%Q /\ (s / m * 100 <= k * 100)%Q.
Proof.
  intros Hm Hs Hk.
  assert (H0 : (0 <= s / m)%Q).
  { apply Qle_shift_div_l; [exact Hm|]. now rewrite Qmult_0_l. }
  assert (H1 : (s / m <= k)%Q) by (apply Qle_shift_div_r; assumption).
  split; lra.
Qed.

(** What the engine saves on a scanned bucket with no negative size. *)
Lemma analysed_savings_bounds (now : Z) (blobs : list Blob)
    (self : GCSCostOptimizer) (bucket : Bucket) :
  Forall (fun blob => 0 <= blob_size blob) blobs ->
  exists self' bd,
    _analyze_bucket now blobs self bucket = Some self'
    /\ buckets_data self' = (buckets_data self ++ [bd])%list
    /\ total_current_cost self' = (total_current_cost self + current_cost bd)%Q
    /\ total_optimized_cost self' = (total_optimized_cost self + optimized_cost bd)%Q
    /\ (0 <= current_cost bd)%Q
    /\ (0.06 * current_cost bd <= optimized_cost bd)%Q
    /\ (optimized_cost bd <= current_cost bd)%Q
    /\ savings bd = (current_cost bd - optimized_cost bd)%Q
    /\ Forall (fun r => 0 <= rec_savings r)%Q (recommendations bd).
Proof.
  intros Hsizes.
  destruct (analyze_bucket_result now blobs self bucket)
    as (bd & main & cost & _ & Hsize & Hcost & Hout & Hrun).
  eexists _, (analysed bd main cost). split; [exact Hrun|].
  assert (Hgb : (0 <= sizeGB bd)%Q).
  { apply sizeGB_nonneg. rewrite Hsize. now apply list_sum_sizes_nonneg. }
  pose proof (current_rate_positive (storage_class bd)) as Hpos.
  assert (Hcc : (0 <= current_cost bd)%Q) by (rewrite Hcost; nra).
  cbn [buckets_data total_current_cost total_optimized_cost
       optimized_cost current_cost savings recommendations analysed].
  unfold versioning_tail.
  destruct Hout as [rate Hstd _ Hrate | _ _ | _ _].
  - rewrite Hcost, Hstd, standard_rate_charged in *.
    assert (Hr : (0.0012 <= rate)%Q /\ (rate <= 0.010)%Q).
    { destruct (target_class_rate bd rate Hrate)
        as [(_ & -> & _) | [(_ & -> & _) | (_ & -> & _)]]; split; lra. }
    destruct Hr as [Hlo Hhi].
    repeat split; try nra.
    destruct (object_count bd >? 1000); repeat constructor;
      cbn [rec_savings tier_rec versioning_rec]; try lra;
      rewrite ?Hcost; nra.
  - repeat split; try lra.
    destruct (object_count bd >? 1000); repeat constructor;
      cbn [rec_savings lifecycle_rec versioning_rec]; lra.
  - repeat split; try lra.
    destruct (object_count bd >? 1000); repeat constructor;
      cbn [rec_savings versioning_rec]; lra.
Qed.

(** X9: with no negative object size, the current and the optimized cost
    of an analysed bucket are not negative, no entry of its list has negative
    savings, and its savings percentage, as the report prints it, lies
    between 0 and 94. *)
Theorem bucket_savings_percent_range (now : Z) (blobs : list Blob)
    (self : GCSCostOptimizer) (bucket : Bucket) :
  Forall (fun blob => 0 <= blob_size blob) blobs ->
  exists self' bd pct,
    _analyze_bucket now blobs self bucket = Some self'
    /\ buckets_data self' = (buckets_data self ++ [bd])%list
    /\ (0 <= optimized_cost bd)%Q
    /\ Forall (fun r => 0 <= rec_savings r)%Q (recommendations bd)
    /\ bucket_savings_percent bd = Some pct
    /\ (0 <= pct)%Q /\ (pct <= 94)%Q.
Proof.
  intros Hsizes.
  destruct (analysed_savings_bounds now blobs self bucket Hsizes)
    as (self' & bd & Hrun & Hlist & _ & _ & Hcc & Hlo & Hhi & Hsav & Hrecs).
  exists self', bd, (savings bd / Py.max (current_cost bd) 0.01 * 100)%Q.
  split; [exact Hrun|]. split; [exact Hlist|]. split; [lra|].
  split; [exact Hrecs|].
  pose proof (max_floor (current_cost bd) 0.01) as Hfloor.
  pose proof (max_left (current_cost bd) 0.01) as Hleft.
  split.
  - unfold bucket_savings_percent. rewrite truediv_nonzero; [reflexivity|].
    intros E. lra.
  - destruct (percent_bounds (savings bd) (Py.max (current_cost bd) 0.01) 0.94)
      as [H0 H1]; rewrite ?Hsav; try lra.
    rewrite Hsav in H0, H1. split; lra.
Qed.

Lemma bucket_savings_percent_range_witness :
  Forall (fun blob => 0 <= blob_size blob) stale_blobs
  /\ exists self' bd pct,
       _analyze_bucket (1000 * day) stale_blobs init media_bucket = Some self'
       /\ buckets_data self' = [bd]
       /\ bucket_savings_percent bd = Some pct
       /\ (pct <= 94)%Q.
Proof.
  assert (H : Forall (fun blob => 0 <= blob_size blob) stale_blobs).
  { repeat constructor; cbn; lia. }
  split; [exact H|].
  destruct (bucket_savings_percent_range (1000 * day) stale_blobs init media_bucket H)
    as (self' & bd & pct & Hrun & Hlist & _ & _ & Hpct & _ & Hle).
  exists self', bd, pct. repeat split; assumption.
Defined.

(** ** A whole run of [analyze_storage] *)

(** One bucket of the run: what is appended and what is added to the
    totals. *)
Lemma analyze_bucket_step (now : Z) (blobs : list Blob)
    (self : GCSCostOptimizer) (bucket : Bucket) :
  exists bd,
    _analyze_bucket now blobs self bucket =
      Some {| buckets_data := (buckets_data self ++ [bd])%list;
              total_current_cost := (total_current_cost self + current_cost bd)%Q;
              total_optimized_cost := (total_optimized_cost self + optimized_cost bd)%Q |}
    /\ bd_name bd = bucket_name bucket
    /\ bd_location bd = bucket_location bucket
    /\ storage_class bd = bucket_storage_class bucket
    /\ size_bytes bd = list_sum_sizes blobs
    /\ object_count bd = Z.of_nat (length blobs).
Proof.
  destruct (snapshot_counts now bucket blobs) as (counts & _ & _ & _ & Hsnap).
  unfold _analyze_bucket. rewrite Hsnap. cbn [mbind option_bind].
  match goal with
  | |- context [_generate_recommendations ?s ?b] =>
      destruct (generate_outcome s b) as (main & cost & _ & ->);
      exists (analysed b main cost)
  end.
  split; [reflexivity|]. repeat split.
Qed.

(** X10: [analyze_storage] keeps the entries it finds and appends one per
    listed bucket, in listing order, carrying the bucket's name, location,
    storage class, total size and object count; the two running totals grow
    by the current and the optimized costs of the appended entries. *)
Theorem analyze_storage_appends (buckets : list (Z * Bucket * list Blob)) :
  forall self,
  exists new,
    analyze_storage self buckets =
      Some {| buckets_data := (buckets_data self ++ new)%list;
              total_current_cost :=
                add_current_costs (total_current_cost self) new;
              total_optimized_cost :=
                add_optimized_costs (total_optimized_cost self) new |}
    /\ Forall2 (fun (scan : Z * Bucket * list Blob) bd =>
                  bd_name bd = bucket_name (snd (fst scan))
                  /\ bd_location bd = bucket_location (snd (fst scan))
                  /\ storage_class bd = bucket_storage_class (snd (fst scan))
                  /\ size_bytes bd = list_sum_sizes (snd scan)
                  /\ object_count bd = Z.of_nat (length (snd scan)))
               buckets new.
Proof.
  induction buckets as [|[[now bucket] blobs] rest IH]; intros self.
  - exists []. cbn [analyze_storage add_current_costs add_optimized_costs].
    rewrite app_nil_r. destruct self. split; [reflexivity | constructor].
  - destruct (analyze_bucket_step now blobs self bucket) as (bd & Hstep & Hbd).
    cbn [analyze_storage]. rewrite Hstep. cbn [mbind option_bind].
    match goal with
    | |- context [analyze_storage ?s rest] => destruct (IH s) as (new & -> & Hnew)
    end.
    exists (bd :: new).
    cbn [buckets_data total_current_cost total_optimized_cost
         add_current_costs add_optimized_costs].
    rewrite <- app_assoc. split; [reflexivity|].
    constructor; [exact Hbd | exact Hnew].
Qed.




(** ** The apply engine *)

Lemma split_nonempty (sep : ascii) (s cur : string) :
  Py.split_from sep cur s <> [].
Proof.
  revert cur. induction s as [|c s IH]; intros cur; cbn [Py.split_from].
  - discriminate.
  - destruct (Ascii.eqb c sep); [discriminate | apply IH].
Qed.

(** The parse of the action text never raises. *)
Lemma parse_total (action : string) :
  exists new_class, Py.last_item (Py.split " " action) = Some new_class.
Proof.
  unfold Py.last_item, Py.split.
  pose proof (split_nonempty " " action EmptyString) as Hne.
  destruct (last (Py.split_from " " "" action)) eqn:E; [eauto|].
  apply last_None in E. contradiction.
Qed.

(** One recommendation: the other buckets are untouched and no bucket is
    created or deleted, whether the [try] block raises or not. *)
Lemma try_apply_frame (bucket_name : string) (r : recommendation)
    (cloud : gmap string RemoteBucket) :
  dom (try_apply bucket_name r cloud) = dom cloud
  /\ (forall other, other <> bucket_name ->
        try_apply bucket_name r cloud !! other = cloud !! other)
  /\ (cloud !! bucket_name = None -> try_apply bucket_name r cloud = cloud).
Proof.
  unfold try_apply, apply_one.
  destruct (String.eqb (rec_type r) "storage_class").
  - destruct (cloud !! bucket_name) as [remote|] eqn:E; cbn [mbind option_bind default from_option id];
      [|repeat split; auto].
    destruct (parse_total (rec_action r)) as [new_class ->].
    cbn [mbind option_bind default from_option id]. split; [|split].
    + apply dom_insert_lookup_L. eauto.
    + intros other Hne. now apply lookup_insert_ne.
    + discriminate.
  - destruct (String.eqb (rec_type r) "lifecycle"); [|repeat split; auto].
    destruct (cloud !! bucket_name) as [remote|] eqn:E; cbn [mbind option_bind default from_option id];
      [|repeat split; auto].
    destruct (set_lifecycle_rules lifecycle_rules) as [rules|];
      cbn [mbind option_bind default from_option id]; [|repeat split; auto].
    split; [|split].
    + apply dom_insert_lookup_L. eauto.
    + intros other Hne. now apply lookup_insert_ne.
    + discriminate.
Qed.

(** The assignment of the dict of the source to [bucket.lifecycle_rules]
    raises: its key is no rule. *)
Lemma lifecycle_assignment_raises : set_lifecycle_rules lifecycle_rules = None.
Proof. reflexivity. Qed.

(** So the lifecycle branch of the [try] block always ends in the [except]
    clause, and nothing is patched. *)
Lemma try_apply_lifecycle (bucket_name : string) (r : recommendation)
    (cloud : gmap string RemoteBucket) :
  rec_type r = "lifecycle" -> try_apply bucket_name r cloud = cloud.
Proof.
  intros Htype. unfold try_apply, apply_one. rewrite Htype.
  change (String.eqb "lifecycle" "storage_class") with false.
  change (String.eqb "lifecycle" "lifecycle") with true. cbv iota.
  destruct (cloud !! bucket_name); reflexivity.
Qed.

Lemma apply_bucket_frame (auto_approve : bool) (bucket_name : string)
    (recs : list recommendation) :
  forall cloud inputs cloud' inputs',
    apply_bucket auto_approve bucket_name recs (cloud, inputs) = Some (cloud', inputs') ->
    dom cloud' = dom cloud
    /\ (forall other, other <> bucket_name -> cloud' !! other = cloud !! other)
    /\ (cloud !! bucket_name = None -> cloud' = cloud).
Proof.
  induction recs as [|r recs IH]; intros cloud inputs cloud' inputs' H;
    cbn [apply_bucket] in H.
  - injection H as <- <-. auto.
  - destruct (try_apply_frame bucket_name r cloud) as (Hd & Ho & Hn).
    assert (Hstep : forall ins,
               apply_bucket auto_approve bucket_name recs
                 (try_apply bucket_name r cloud, ins) = Some (cloud', inputs') ->
               dom cloud' = dom cloud
               /\ (forall other, other <> bucket_name -> cloud' !! other = cloud !! other)
               /\ (cloud !! bucket_name = None -> cloud' = cloud)).
    { intros ins Hrun. destruct (IH _ _ _ _ Hrun) as (Hd' & Ho' & Hn').
      split; [congruence|]. split.
      - intros other Hne. rewrite Ho', Ho by exact Hne. reflexivity.
      - intros Hnone. specialize (Hn Hnone). rewrite Hn in Hn'. auto. }
    destruct auto_approve; [now apply (Hstep inputs)|].
    destruct inputs as [|response inputs1]; [discriminate H|].
    destruct (String.eqb (Py.lower response) "y");
      [now apply (Hstep inputs1) | now apply (IH _ _ _ _ H)].
Qed.

(** X12: whatever the apply engine does, it creates and deletes no bucket
    and changes none but the buckets named in [buckets_data]. *)
Theorem apply_touches_only_analysed_buckets (self : GCSCostOptimizer)
    (auto_approve : bool) (cloud cloud' : gmap string RemoteBucket)
    (inputs inputs' : list string) :
  apply_recommendations self auto_approve (cloud, inputs) = Some (cloud', inputs') ->
  dom cloud' = dom cloud
  /\ forall other,
       ~ In other (map bd_name (buckets_data self)) ->
       cloud' !! other = cloud !! other.
Proof.
  unfold apply_recommendations. generalize (buckets_data self) as buckets.
  intros buckets. revert cloud inputs.
  induction buckets as [|b rest IH]; intros cloud inputs H; cbn [apply_buckets] in H.
  - injection H as <- <-. auto.
  - destruct (apply_bucket auto_approve (bd_name b) (recommendations b) (cloud, inputs))
      as [[cloud1 inputs1]|] eqn:E; [|discriminate H].
    cbn [mbind option_bind] in H.
    destruct (apply_bucket_frame _ _ _ _ _ _ _ E) as (Hd & Ho & _).
    destruct (IH _ _ H) as (Hd' & Ho').
    split; [congruence|].
    intros other Hnot. cbn [map In] in Hnot.
    rewrite Ho' by tauto. apply Ho. intros ->. tauto.
Qed.

Lemma apply_touches_only_analysed_buckets_witness :
  exists cloud',
    apply_recommendations sample_run true (media_cloud, []) = Some (cloud', [])
    /\ cloud' !! "other" = media_cloud !! "other".
Proof.
  destruct (apply_recommendations sample_run true (media_cloud, []))
    as [[cloud' inputs']|] eqn:E; [|vm_compute in E; discriminate E].
  assert (inputs' = []) as -> by (vm_compute in E; now injection E).
  exists cloud'. split; [reflexivity|].
  apply (apply_touches_only_analysed_buckets sample_run true media_cloud cloud' [] [] E).
  vm_compute. intros [H|[H|[]]]; discriminate H.
Defined.

Lemma apply_bucket_auto (bucket_name : string) (recs : list recommendation) :
  forall cloud inputs,
  exists cloud',
    apply_bucket true bucket_name recs (cloud, inputs) = Some (cloud', inputs).
Proof.
  induction recs as [|r recs IH]; intros cloud inputs; cbn [apply_bucket].
  - eauto.
  - apply IH.
Qed.

(** X13: with auto-approve the apply engine never raises and reads no
    input, whatever the recommendations and whatever the provider knows; a
    bucket the provider does not know stays unknown and the others are
    processed. *)
Theorem auto_approve_never_raises (self : GCSCostOptimizer)
    (cloud : gmap string RemoteBucket) (inputs : list string) :
  exists cloud',
    apply_recommendations self true (cloud, inputs) = Some (cloud', inputs)
    /\ forall name, cloud !! name = None -> cloud' !! name = None.
Proof.
  unfold apply_recommendations. generalize (buckets_data self) as buckets.
  intros buckets. revert cloud.
  induction buckets as [|b rest IH]; intros cloud; cbn [apply_buckets].
  - exists cloud. auto.
  - destruct (apply_bucket_auto (bd_name b) (recommendations b) cloud inputs)
      as (cloud1 & H1).
    rewrite H1. cbn [mbind option_bind].
    destruct (IH cloud1) as (cloud' & H' & Hnone).
    exists cloud'. split; [exact H'|].
    intros name Hname. apply Hnone.
    destruct (apply_bucket_frame _ _ _ _ _ _ _ H1) as (Hd & _ & _).
    apply not_elem_of_dom. rewrite Hd. now apply not_elem_of_dom.
Qed.

Lemma apply_bucket_inputs (bucket_name : string) (recs : list recommendation) :
  forall cloud inputs,
    (length inputs < length recs ->
     apply_bucket false bucket_name recs (cloud, inputs) = None)%nat
    /\ (length recs <= length inputs ->
        exists cloud',
          apply_bucket false bucket_name recs (cloud, inputs)
            = Some (cloud', drop (length recs) inputs))%nat.
Proof.
  induction recs as [|r recs IH]; intros cloud inputs; cbn [apply_bucket length].
  - split; [lia|]. intros _. exists cloud. reflexivity.
  - destruct inputs as [|response inputs1]; cbn [length].
    + split; [reflexivity | lia].
    + cbn [drop].
      destruct (String.eqb (Py.lower response) "y");
        match goal with
        | |- context [apply_bucket false _ _ (?c, _)] =>
            destruct (IH c inputs1) as [Hshort Hlong]
        end; (split; intros; [apply Hshort | apply Hlong]; lia).
Qed.

Lemma apply_buckets_inputs (buckets : list BucketData) :
  forall cloud inputs,
    (length inputs < pending buckets ->
     apply_buckets false buckets (cloud, inputs) = None)%nat
    /\ (pending buckets <= length inputs ->
        exists cloud',
          apply_buckets false buckets (cloud, inputs)
            = Some (cloud', drop (pending buckets) inputs))%nat.
Proof.
  induction buckets as [|b rest IH]; intros cloud inputs;
    cbn [apply_buckets pending].
  - split; [lia|]. intros _. exists cloud. reflexivity.
  - destruct (apply_bucket_inputs (bd_name b) (recommendations b) cloud inputs)
      as [Hshort Hlong].
    destruct (Nat.lt_ge_cases (length inputs) (length (recommendations b)))
      as [Hlt|Hge].
    + rewrite Hshort by exact Hlt. cbn [mbind option_bind].
      split; [reflexivity | lia].
    + destruct (Hlong Hge) as (cloud1 & ->). cbn [mbind option_bind].
      destruct (IH cloud1 (drop (length (recommendations b)) inputs))
        as [Hshort' Hlong'].
      rewrite length_drop in Hshort', Hlong'.
      split; intros H.
      * apply Hshort'. lia.
      * destruct Hlong' as (cloud' & ->); [lia|].
        exists cloud'. now rewrite drop_drop.
Qed.

(** X14: without auto-approve the apply engine reads one answer per
    recommendation, in order: it raises exactly when the input holds fewer
    answers than there are recommendations, and otherwise leaves the answers
    beyond those unread. *)
Theorem apply_reads_one_answer_each (self : GCSCostOptimizer)
    (cloud : gmap string RemoteBucket) (inputs : list string) :
  (apply_recommendations self false (cloud, inputs) = None
   <-> (length inputs < pending (buckets_data self))%nat)
  /\ forall cloud' inputs',
       apply_recommendations self false (cloud, inputs) = Some (cloud', inputs') ->
       inputs' = drop (pending (buckets_data self)) inputs.
Proof.
  unfold apply_recommendations.
  destruct (apply_buckets_inputs (buckets_data self) cloud inputs) as [Hshort Hlong].
  destruct (Nat.lt_ge_cases (length inputs) (pending (buckets_data self)))
    as [Hlt|Hge].
  - rewrite Hshort by exact Hlt. split; [tauto|]. discriminate.
  - destruct (Hlong Hge) as (cloud1 & ->). split.
    + split; [discriminate | lia].
    + intros cloud' inputs' [= _ <-]. reflexivity.
Qed.

Lemma apply_bucket_declined (bucket_name : string) (recs : list recommendation) :
  forall cloud inputs,
    (length recs <= length inputs)%nat ->
    Forall (fun response => Py.lower response <> "y") (take (length recs) inputs) ->
    apply_bucket false bucket_name recs (cloud, inputs)
      = Some (cloud, drop (length recs) inputs).
Proof.
  induction recs as [|r recs IH]; intros cloud inputs Hlen Hno;
    cbn [apply_bucket length].
  - reflexivity.
  - destruct inputs as [|response inputs1]; cbn [length] in Hlen; [lia|].
    cbn [take length] in Hno. inversion Hno as [|? ? Hr Hrest]; subst.
    destruct (String.eqb_spec (Py.lower response) "y"); [contradiction|].
    cbn [drop]. apply IH; [lia | exact Hrest].
Qed.

(** X15: when every answer is something else than [y] or [Y], nothing is
    patched: the provider is left as it was and one answer per
    recommendation is consumed. *)
Theorem declined_changes_nothing (self : GCSCostOptimizer)
    (cloud : gmap string RemoteBucket) (inputs : list string) :
  (pending (buckets_data self) <= length inputs)%nat ->
  Forall (fun response => Py.lower response <> "y")
         (take (pending (buckets_data self)) inputs) ->
  apply_recommendations self false (cloud, inputs)
    = Some (cloud, drop (pending (buckets_data self)) inputs).
Proof.
  unfold apply_recommendations. generalize (buckets_data self) as buckets.
  intros buckets. revert inputs.
  induction buckets as [|b rest IH]; intros inputs Hlen Hno;
    cbn [apply_buckets pending] in *.
  - reflexivity.
  - rewrite (apply_bucket_declined _ _ cloud inputs).
    + cbn [mbind option_bind]. rewrite IH.
      * now rewrite drop_drop.
      * rewrite length_drop. lia.
      * rewrite take_drop_commute.
        apply Forall_drop. exact Hno.
    + lia.
    + replace (take (length (recommendations b)) inputs)
        with (take (length (recommendations b))
                (take (length (recommendations b) + pending rest) inputs))
        by (rewrite take_take; f_equal; lia).
      apply Forall_take. exact Hno.
Qed.

Lemma declined_changes_nothing_witness :
  (pending (buckets_data sample_run) <= length ["n"; "N"; "y"])%nat
  /\ apply_recommendations sample_run false (media_cloud, ["n"; "N"; "y"])
     = Some (media_cloud, ["y"]).
Proof.
  assert (Hlen : (pending (buckets_data sample_run) <= length ["n"; "N"; "y"])%nat)
    by (vm_compute; lia).
  split; [exact Hlen|].
  apply (declined_changes_nothing sample_run media_cloud ["n"; "N"; "y"] Hlen).
  vm_compute. repeat constructor; discriminate.
Defined.

Lemma string_app_assoc (a b c : string) : (a +:+ b) +:+ c = a +:+ (b +:+ c).
Proof.
  induction a as [|x a IH]; [reflexivity|].
  change (String x ((a +:+ b) +:+ c) = String x (a +:+ (b +:+ c))). now f_equal.
Qed.

Lemma string_app_empty_r (a : string) : a +:+ "" = a.
Proof.
  induction a as [|x a IH]; [reflexivity|].
  change (String x (a +:+ "") = String x a). now f_equal.
Qed.

Lemma split_from_no_separator (sep : ascii) (w : string) :
  forall cur,
    contains sep w = false -> Py.split_from sep cur w = [cur +:+ w].
Proof.
  induction w as [|c w IH]; intros cur Hw; cbn [Py.split_from contains] in *.
  - now rewrite string_app_empty_r.
  - apply orb_false_iff in Hw as [Hc Hw]. rewrite Hc.
    rewrite (IH _ Hw), string_app_assoc. reflexivity.
Qed.

(** The last piece of a text that ends in a separator followed by a word
    without one is that word. *)
Lemma split_last_word (sep : ascii) (w : string) (pre : string) :
  contains sep w = false ->
  forall cur, last (Py.split_from sep cur (pre +:+ String sep w)) = Some w.
Proof.
  intros Hw. induction pre as [|c pre IH]; intros cur.
  - change ("" +:+ String sep w) with (String sep w). cbn [Py.split_from].
    rewrite Ascii.eqb_refl, (split_from_no_separator sep w "" Hw). reflexivity.
  - change (String c pre +:+ String sep w) with (String c (pre +:+ String sep w)).
    cbn [Py.split_from]. destruct (Ascii.eqb c sep).
    + rewrite last_cons, IH. reflexivity.
    + apply IH.
Qed.

(** X16: for a tier-change entry the apply engine takes the last
    space-separated word of the action text as the class: when the text ends
    in a space and a word without spaces, the bucket's default storage class
    becomes that word and its lifecycle rules are kept. *)
Theorem apply_sets_last_word (bucket_name : string) (r : recommendation)
    (cloud : gmap string RemoteBucket) (remote : RemoteBucket)
    (pre word : string) :
  rec_type r = "storage_class" ->
  rec_action r = pre +:+ " " +:+ word ->
  contains " " word = false ->
  cloud !! bucket_name = Some remote ->
  try_apply bucket_name r cloud =
    <[bucket_name := {| remote_storage_class := word;
                        remote_lifecycle_rules := remote_lifecycle_rules remote |}]>
      cloud.
Proof.
  intros Htype Haction Hword Hknown.
  unfold try_apply, apply_one. rewrite Htype, Haction, Hknown.
  change (String.eqb "storage_class" "storage_class") with true. cbv iota.
  cbn [mbind option_bind]. unfold Py.last_item, Py.split.
  change (" " +:+ word) with (String " " word).
  rewrite (split_last_word " " word pre Hword). reflexivity.
Qed.

Lemma apply_sets_last_word_witness :
  try_apply "media"
    {| rec_type := "storage_class"; rec_action := "move it to DEEP_FREEZE";
       rec_savings := 0%Q; rec_details := "" |} media_cloud !! "media"
  = Some {| remote_storage_class := "DEEP_FREEZE"; remote_lifecycle_rules := [] |}.
Proof.
  rewrite (apply_sets_last_word "media" _ media_cloud
             {| remote_storage_class := "STANDARD"; remote_lifecycle_rules := [] |}
             "move it to" "DEEP_FREEZE");
    [apply lookup_insert_eq | reflexivity | reflexivity | reflexivity
    | vm_compute; reflexivity].
Defined.

Lemma patched_idempotent (b : BucketData) (remote : RemoteBucket) :
  patched b (patched b remote) = patched b remote.
Proof.
  unfold patched.
  destruct (String.eqb (storage_class b) "STANDARD" && Py.gt (coldRatio b) 0.7);
    reflexivity.
Qed.

(** The list of an analysed bucket, applied with auto-approve to a provider
    that knows the bucket. *)
Lemma apply_analysed (self : GCSCostOptimizer) (b : BucketData)
    (cloud : gmap string RemoteBucket) (remote : RemoteBucket)
    (inputs : list string) :
  cloud !! bd_name b = Some remote ->
  exists self' b',
    _generate_recommendations self b = Some (self', b')
    /\ bd_name b' = bd_name b
    /\ apply_bucket true (bd_name b') (recommendations b') (cloud, inputs)
       = Some (<[bd_name b := patched b remote]> cloud, inputs).
Proof.
  intros Hknown.
  destruct (generate_outcome self b) as (main & cost & Hout & Hgen).
  eexists _, _. split; [exact Hgen|]. split; [reflexivity|].
  cbn [bd_name recommendations analysed]. unfold versioning_tail, patched.
  destruct Hout as [rate Hstd H7 Hrate | Hno H3 | Hno H3].
  - rewrite Hstd, (proj2 (gt_true _ _) H7). cbn [String.eqb andb].
    change (String.eqb "STANDARD" "STANDARD") with true. cbn [andb].
    assert (Hone : try_apply (bd_name b) (tier_rec b (target_class b) rate) cloud
                   = <[bd_name b := {| remote_storage_class := target_class b;
                                       remote_lifecycle_rules :=
                                         remote_lifecycle_rules remote |}]> cloud).
    { unfold try_apply, apply_one.
      change (rec_type (tier_rec b (target_class b) rate)) with "storage_class".
      change (String.eqb "storage_class" "storage_class") with true. cbv iota.
      rewrite Hknown. cbn [mbind option_bind].
      rewrite (parsed_target b rate Hstd). reflexivity. }
    destruct (object_count b >? 1000); cbn [app apply_bucket]; rewrite Hone;
      reflexivity.
  - assert (Hcond : String.eqb (storage_class b) "STANDARD"
                    && Py.gt (coldRatio b) 0.7 = false).
    { destruct Hno as [Hne | Hle].
      - apply String.eqb_neq in Hne. now rewrite Hne.
      - rewrite (proj2 (gt_false _ _) Hle). apply andb_false_r. }
    rewrite Hcond, (insert_id cloud _ _ Hknown).
    destruct (object_count b >? 1000); cbn [app apply_bucket];
      rewrite (try_apply_lifecycle (bd_name b) (lifecycle_rec b) cloud eq_refl);
      reflexivity.
  - assert (Hcond : String.eqb (storage_class b) "STANDARD"
                    && Py.gt (coldRatio b) 0.7 = false).
    { destruct Hno as [Hne | Hle].
      - apply String.eqb_neq in Hne. now rewrite Hne.
      - rewrite (proj2 (gt_false _ _) Hle). apply andb_false_r. }
    rewrite Hcond, (insert_id cloud _ _ Hknown).
    destruct (object_count b >? 1000); reflexivity.
Qed.

(** X17: analysis and apply engine together.  With auto-approve and a
    bucket the provider knows, a STANDARD bucket with a cold ratio above 0.7
    ends with the target class of its tier change and its old lifecycle
    rules.  Every other bucket is left as it was, also when a lifecycle
    policy was recommended: the [try] block assigns a dict with the key
    ['rule'] where the client expects a list of rules, the assignment raises,
    and the [except] clause absorbs it before anything is patched. *)
Theorem analyse_then_apply (self : GCSCostOptimizer) (b : BucketData)
    (cloud : gmap string RemoteBucket) (remote : RemoteBucket)
    (inputs : list string) :
  cloud !! bd_name b = Some remote ->
  exists self' b' cloud',
    _generate_recommendations self b = Some (self', b')
    /\ apply_bucket true (bd_name b') (recommendations b') (cloud, inputs)
       = Some (cloud', inputs)
    /\ (storage_class b = "STANDARD" -> (0.7 < coldRatio b)%Q ->
        cloud' =
          <[bd_name b :=
              {| remote_storage_class := target_class b;
                 remote_lifecycle_rules := remote_lifecycle_rules remote |}]> cloud)
    /\ (storage_class b <> "STANDARD" \/ (coldRatio b <= 0.7)%Q -> cloud' = cloud)
    /\ ((exists r, In r (recommendations b') /\ is_lifecycle r = true) ->
        cloud' = cloud).
Proof.
  intros Hknown.
  destruct (apply_analysed self b cloud remote inputs Hknown)
    as (self' & b' & Hgen & Hname & Happly).
  exists self', b', (<[bd_name b := patched b remote]> cloud).
  split; [exact Hgen|]. split; [exact Happly|].
  assert (Hleft : storage_class b <> "STANDARD" \/ (coldRatio b <= 0.7)%Q ->
                  <[bd_name b := patched b remote]> cloud = cloud).
  { intros Hno. unfold patched.
    assert (Hcond : String.eqb (storage_class b) "STANDARD"
                    && Py.gt (coldRatio b) 0.7 = false).
    { destruct Hno as [Hne | Hle].
      - apply String.eqb_neq in Hne. now rewrite Hne.
      - rewrite (proj2 (gt_false _ _) Hle). apply andb_false_r. }
    rewrite Hcond. now apply insert_id. }
  split; [|split; [exact Hleft|]].
  - intros Hstd H7. unfold patched.
    rewrite Hstd, (proj2 (gt_true _ _) H7). reflexivity.
  - intros (r & Hin & Hr). apply Hleft.
    destruct (generate_outcome self b) as (main & cost & Hout & Hgen').
    rewrite Hgen in Hgen'. injection Hgen' as _ ->.
    apply in_analysed in Hin.
    destruct Hout as [rate _ _ _ | Hno _ | Hno _]; [|exact Hno | exact Hno].
    exfalso. destruct Hin as [[<-|[]] | [_ ->]]; discriminate Hr.
Qed.

(** X18: applying the list of an analysed bucket a second time changes
    nothing more. *)
Theorem apply_twice_is_apply_once (self : GCSCostOptimizer) (b : BucketData)
    (cloud : gmap string RemoteBucket) (remote : RemoteBucket)
    (inputs : list string) :
  cloud !! bd_name b = Some remote ->
  exists self' b' cloud',
    _generate_recommendations self b = Some (self', b')
    /\ apply_bucket true (bd_name b') (recommendations b') (cloud, inputs)
       = Some (cloud', inputs)
    /\ apply_bucket true (bd_name b') (recommendations b') (cloud', inputs)
       = Some (cloud', inputs).
Proof.
  intros Hknown.
  destruct (apply_analysed self b cloud remote inputs Hknown)
    as (self' & b' & Hgen & Hname & Happly).
  exists self', b', (<[bd_name b := patched b remote]> cloud).
  split; [exact Hgen|]. split; [exact Happly|].
  destruct (apply_analysed self b (<[bd_name b := patched b remote]> cloud)
              (patched b remote) inputs (lookup_insert_eq _ _ _))
    as (self2 & b2 & Hgen2 & _ & Happly2).
  rewrite Hgen in Hgen2. injection Hgen2 as _ <-.
  rewrite Happly2, patched_idempotent, insert_insert_eq. reflexivity.
Qed.

Lemma analyse_then_apply_witness :
  let b := sample_data "STANDARD" (100 * 1024 ^ 3) 10 0 10 in
  exists self' b' cloud',
    _generate_recommendations init b = Some (self', b')
    /\ apply_bucket true (bd_name b') (recommendations b') (sample_cloud, [])
       = Some (cloud', [])
    /\ cloud' !! "logs" =
         Some {| remote_storage_class := "ARCHIVE"; remote_lifecycle_rules := [] |}.
Proof.
  intros b.
  assert (Hknown : sample_cloud !! bd_name b
                   = Some {| remote_storage_class := "STANDARD";
                             remote_lifecycle_rules := [] |})
    by (vm_compute; reflexivity).
  destruct (analyse_then_apply init b sample_cloud _ [] Hknown)
    as (self' & b' & cloud' & Hgen & Happly & Htier & _).
  exists self', b', cloud'. split; [exact Hgen|]. split; [exact Happly|].
  rewrite Htier.
  - vm_compute. reflexivity.
  - reflexivity.
  - vm_compute. reflexivity.
Defined.

Lemma apply_twice_is_apply_once_witness :
  let b := sample_data "STANDARD" (100 * 1024 ^ 3) 10 0 10 in
  exists self' b' cloud',
    _generate_recommendations init b = Some (self', b')
    /\ apply_bucket true (bd_name b') (recommendations b') (sample_cloud, [])
       = Some (cloud', [])
    /\ apply_bucket true (bd_name b') (recommendations b') (cloud', [])
       = Some (cloud', []).
Proof.
  intros b.
  assert (Hknown : sample_cloud !! bd_name b
                   = Some {| remote_storage_class := "STANDARD";
                             remote_lifecycle_rules := [] |})
    by (vm_compute; reflexivity).
  exact (apply_twice_is_apply_once init b sample_cloud _ [] Hknown).
Defined.

(** ** The report and the command line *)

Lemma bucket_savings_percent_total (bucket : BucketData) :
  exists pct, bucket_savings_percent bucket = Some pct.
Proof.
  unfold bucket_savings_percent. rewrite truediv_nonzero; [eauto|].
  intros E. pose proof (max_floor (current_cost bucket) 0.01). lra.
Qed.

Lemma total_savings_percent_total (self : GCSCostOptimizer) :
  exists q,
    Py.truediv (total_current_cost self - total_optimized_cost self)
               (Py.max (total_current_cost self) 0.01) = Some q.
Proof.
  rewrite truediv_nonzero; [eauto|].
  intros E. pose proof (max_floor (total_current_cost self) 0.01). lra.
Qed.

(** The rows of the summary table. *)
Lemma summary_rows_total (buckets : list BucketData) :
  exists rows,
    summary_rows buckets = Some rows
    /\ Forall2 (fun bucket row =>
                  length row = length summary_headers
                  /\ head row = Some (bd_name bucket)
                  /\ row !! 1%nat = Some (storage_class bucket)) buckets rows.
Proof.
  induction buckets as [|bucket rest (rows & Hrows & Hall)]; cbn [summary_rows].
  - exists []. split; [reflexivity | constructor].
  - unfold summary_row. rewrite size_gb_of_total. cbn [mbind option_bind].
    destruct (bucket_savings_percent_total bucket) as (pct & ->).
    cbn [mbind option_bind]. rewrite Hrows. cbn [mbind option_bind].
    eexists. split; [reflexivity|].
    constructor; [|exact Hall]. repeat split.
Qed.

Lemma display_results_total (self : GCSCostOptimizer) :
  exists out, display_results self = Some out.
Proof.
  unfold display_results. destruct (buckets_data self) as [|b rest]; [eauto|].
  destruct (summary_rows_total (b :: rest)) as (rows & -> & _).
  cbn [mbind option_bind].
  destruct (total_savings_percent_total self) as (q & ->).
  cbn [mbind option_bind]. eauto.
Qed.

(** X19: [display_results] never raises, also for buckets of no cost.  On a
    fresh optimizer it prints one notice; otherwise the banner is followed by
    a table with one row per analysed bucket, in order, each row with as many
    cells as there are headers and starting with the bucket's name and
    storage class. *)
Theorem display_has_a_row_per_bucket (self : GCSCostOptimizer) :
  (buckets_data self = [] ->
   display_results self
     = Some [ Print "No data to display. Run analyze_storage() first." ])
  /\ (buckets_data self <> [] ->
      exists banner rows rest,
        display_results self
          = Some (Print banner :: Tabulate rows summary_headers :: rest)
        /\ Forall2 (fun bucket row =>
                      length row = length summary_headers
                      /\ head row = Some (bd_name bucket)
                      /\ row !! 1%nat = Some (storage_class bucket))
                   (buckets_data self) rows).
Proof.
  unfold display_results. split.
  - intros ->. reflexivity.
  - intros Hne. destruct (buckets_data self) as [|b rest] eqn:E; [contradiction|].
    destruct (summary_rows_total (b :: rest)) as (rows & -> & Hrows).
    cbn [mbind option_bind].
    destruct (total_savings_percent_total self) as (q & ->).
    cbn [mbind option_bind app]. eauto.
Qed.

Lemma export_report_result (project stamp : string) (self : GCSCostOptimizer)
    (filename : string) (files : gmap string Report) :
  exists q,
    Py.truediv (total_current_cost self - total_optimized_cost self)
               (Py.max (total_current_cost self) 0.01) = Some q
    /\ export_report project stamp self filename files =
         Some (match buckets_data self with
               | [] => files
               | _ :: _ =>
                   <[filename :=
                       {| project_id := project;
                          generated_at := stamp;
                          summary :=
                            {| total_buckets := Z.of_nat (length (buckets_data self));
                               summary_total_current_cost := total_current_cost self;
                               summary_total_optimized_cost := total_optimized_cost self;
                               total_savings :=
                                 (total_current_cost self - total_optimized_cost self)%Q;
                               savings_percent := (q * 100)%Q |};
                          buckets := buckets_data self |}]> files
               end).
Proof.
  destruct (total_savings_percent_total self) as (q & Hq).
  exists q. split; [exact Hq|].
  unfold export_report. destruct (buckets_data self); [reflexivity|].
  rewrite Hq. reflexivity.
Qed.

(** X20: the report exported after a run is consistent with itself.  With
    no bucket listed, no file is written.  Otherwise the named file, and no
    other, is replaced by a report that carries one entry per listed bucket,
    whose totals are the sums of the current and of the optimized costs of
    its own entries, whose savings are their difference and whose percentage
    is the one the console shows. *)
Theorem exported_report_is_consistent (project stamp filename : string)
    (listing : list (Z * Bucket * list Blob)) (files : gmap string Report) :
  exists self files',
    analyze_storage init listing = Some self
    /\ export_report project stamp self filename files = Some files'
    /\ (listing = [] -> files' = files)
    /\ (forall other, other <> filename -> files' !! other = files !! other)
    /\ (listing <> [] ->
        exists report,
          files' !! filename = Some report
          /\ project_id report = project
          /\ generated_at report = stamp
          /\ length (buckets report) = length listing
          /\ total_buckets (summary report) = Z.of_nat (length listing)
          /\ summary_total_current_cost (summary report)
             = add_current_costs 0 (buckets report)
          /\ summary_total_optimized_cost (summary report)
             = add_optimized_costs 0 (buckets report)
          /\ total_savings (summary report)
             = (summary_total_current_cost (summary report)
                - summary_total_optimized_cost (summary report))%Q
          /\ total_savings_percent self = Some (savings_percent (summary report))).
Proof.
  destruct (analyze_storage_appends listing init) as (new & Hrun & Hnew).
  cbn [buckets_data total_current_cost total_optimized_cost init app] in Hrun.
  pose proof (Forall2_length _ _ _ Hnew) as Hlen.
  eexists. 
  match type of Hrun with
  | _ = Some ?s =>
      destruct (export_report_result project stamp s filename files)
        as (q & Hq & Hexp)
  end.
  eexists. split; [exact Hrun|]. split; [exact Hexp|].
  cbn [buckets_data total_current_cost total_optimized_cost] in *.
  split; [|split].
  - intros ->. inversion Hnew. reflexivity.
  - intros other Hne. destruct new; [reflexivity|]. now apply lookup_insert_ne.
  - intros Hne. destruct new as [|b new]; [destruct listing; [contradiction|discriminate Hlen]|].
    eexists. split; [apply lookup_insert_eq|].
    cbn [project_id generated_at summary buckets total_buckets
         summary_total_current_cost summary_total_optimized_cost
         total_savings savings_percent].
    repeat split; try congruence.
    unfold total_savings_percent.
    cbn [total_current_cost total_optimized_cost]. rewrite Hq. reflexivity.
Qed.




(** X22: what a run of [main] that ends with exit code 0 leaves on disk.
    Without [--export], with an empty file name, or when the project lists
    no bucket, the files are as before; otherwise the named file holds the
    report of the run and the other files are as before. *)
Theorem main_export (args : Args) (stamp : string)
    (listing : list (Z * Bucket * list Blob))
    (cloud : gmap string RemoteBucket) (inputs : list string)
    (files : gmap string Report) :
  exists self,
    analyze_storage init listing = Some self
    /\ (args_export args = None \/ args_export args = Some "" \/ listing = [] ->
        snd (main args stamp listing cloud inputs files) = files)
    /\ (forall filename,
          fst (main args stamp listing cloud inputs files) = 0 ->
          args_export args = Some filename -> filename <> "" -> listing <> [] ->
          exists report,
            snd (main args stamp listing cloud inputs files) !! filename = Some report
            /\ project_id report = args_project args
            /\ buckets report = buckets_data self
            /\ (forall other, other <> filename ->
                  snd (main args stamp listing cloud inputs files) !! other
                  = files !! other)).
Proof.
  destruct (analyze_storage_appends listing init) as (new & Hrun & Hnew).
  cbn [buckets_data total_current_cost total_optimized_cost init app] in Hrun.
  pose proof (Forall2_length _ _ _ Hnew) as Hlen.
  eexists. split; [exact Hrun|].
  unfold main, main_body. rewrite Hrun. cbn [mbind option_bind].
  match goal with
  | |- context [display_results ?s] =>
      destruct (display_results_total s) as (out & ->); set (self := s)
  end.
  cbn [mbind option_bind].
  destruct (if args_apply args
            then apply_recommendations self (args_auto_approve args) (cloud, inputs)
            else Some (cloud, inputs)) as [st|]; cbn [mbind option_bind].
  2: { cbn [fst snd]. split; [reflexivity | discriminate]. }
  unfold export_target.
  destruct (args_export args) as [filename|] eqn:Eexp.
  2: { cbn [fst snd]. split; [reflexivity | discriminate]. }
  destruct filename as [|c filename].
  { cbn [fst snd]. split; [reflexivity|]. intros f _ [= <-] Hf. contradiction. }
  destruct (export_report_result (args_project args) stamp self
              (String c filename) files) as (q & _ & ->).
  cbn [fst snd]. subst self. cbn [buckets_data].
  split.
  - intros [H | [H | ->]]; [discriminate H | discriminate H|].
    inversion Hnew. reflexivity.
  - intros f _ [= <-] _ Hne.
    destruct new as [|b new];
      [destruct listing; [contradiction | discriminate Hlen]|].
    eexists. split; [apply lookup_insert_eq|]. repeat split.
    intros other Hother. now apply lookup_insert_ne.
Qed.

(** ** An empty bucket, and the analysis after a tier change *)

(** X23: a bucket without objects is appended with no recommendation, no
    cost, no savings and a savings percentage of 0, and it adds nothing to
    the totals. *)
Theorem empty_bucket_gets_nothing (now : Z) (self : GCSCostOptimizer)
    (bucket : Bucket) :
  exists self' bd pct,
    _analyze_bucket now [] self bucket = Some self'
    /\ buckets_data self' = (buckets_data self ++ [bd])%list
    /\ bd_name bd = bucket_name bucket
    /\ object_count bd = 0
    /\ size_bytes bd = 0
    /\ recommendations bd = []
    /\ (current_cost bd == 0)%Q
    /\ (optimized_cost bd == 0)%Q
    /\ (savings bd == 0)%Q
    /\ bucket_savings_percent bd = Some pct
    /\ (pct == 0)%Q
    /\ (total_current_cost self' == total_current_cost self)%Q
    /\ (total_optimized_cost self' == total_optimized_cost self)%Q.
Proof.
  destruct (snapshot_counts now bucket []) as (counts & _ & _ & Hc & Hsnap).
  unfold _analyze_bucket. rewrite Hsnap. cbn [mbind option_bind].
  match goal with
  | |- context [_generate_recommendations ?s ?b] =>
      destruct (generate_outcome s b) as (main & cost & Hout & ->);
      assert (Hratio : coldRatio b = (inject_Z 0 / inject_Z 1)%Q)
        by (unfold coldRatio, rare, cold; cbn [access_frequency object_count];
            change (Py.get counts "rare" 0) with (count_of Rare counts);
            change (Py.get counts "cold" 0) with (count_of Cold counts);
            rewrite !Hc; reflexivity);
      assert (Hcc : (current_cost b == 0)%Q)
        by (cbn [current_cost list_sum_sizes];
            change (inject_Z 0 / inject_Z (1024 ^ 3))%Q with (0 # 1073741824)%Q;
            apply Qmult_0_l)
  end.
  cbn [mbind option_bind].
  assert (Hnot : ~ (0.3 < inject_Z 0 / inject_Z 1)%Q) by (vm_compute; discriminate).
  assert (Hnot7 : ~ (0.7 < inject_Z 0 / inject_Z 1)%Q) by (vm_compute; discriminate).
  destruct Hout as [rate _ H7 _ | _ H3 | _ _];
    [rewrite Hratio in H7; contradiction | rewrite Hratio in H3; contradiction |].
  eexists _, _, _. split; [reflexivity|].
  cbn [buckets_data total_current_cost total_optimized_cost bd_name object_count
       size_bytes recommendations current_cost optimized_cost savings analysed
       length list_sum_sizes] in *.
  change (versioning_tail _) with (@nil recommendation).
  unfold bucket_savings_percent.
  cbn [savings current_cost analysed].
  rewrite truediv_nonzero
    by (intros E; match type of E with (Py.max ?c _ == 0)%Q =>
                    pose proof (max_floor c 0.01) end; lra).
  cbn [mbind option_bind].
  repeat split; try reflexivity; try exact Hcc; rewrite ?Hcc; ring.
Qed.

(** X24: the analysis after an applied tier change.  When a scanned
    STANDARD bucket got a tier change and its default storage class was set
    to the target, a second scan of the same objects prices the bucket at
    exactly the optimized cost the first analysis announced, proposes no
    further tier change, and proposes the lifecycle policy with savings of
    0.3 times that cost. *)
Theorem reanalysis_after_tier_change (now : Z) (bucket : Bucket)
    (blobs : list Blob) (self self' : GCSCostOptimizer) (bd : BucketData) :
  snapshot now bucket blobs = Some bd ->
  bucket_storage_class bucket = "STANDARD" ->
  (0.7 < coldRatio bd)%Q ->
  exists self1 bd1 bd2 self2 bd2',
    _generate_recommendations self bd = Some (self1, bd1)
    /\ snapshot now (reclassed bucket (target_class bd)) blobs = Some bd2
    /\ current_cost bd2 = optimized_cost bd1
    /\ _generate_recommendations self' bd2 = Some (self2, bd2')
    /\ List.filter is_tier_change (recommendations bd2') = []
    /\ List.filter is_lifecycle (recommendations bd2')
       = [lifecycle_rec bd2]
    /\ rec_savings (lifecycle_rec bd2) = (optimized_cost bd1 * 0.3)%Q
    /\ (optimized_cost bd2' == 0.7 * optimized_cost bd1)%Q.
Proof.
  intros Hsnap Hstd H7.
  destruct (snapshot_counts now bucket blobs) as (m1 & Hm1 & Hd1 & Hc1 & Hs1).
  destruct (snapshot_counts now (reclassed bucket (target_class bd)) blobs)
    as (m2 & Hm2 & Hd2 & Hc2 & Hs2).
  assert (m2 = m1) as ->.
  { apply access_counts_ext; auto. intros c. now rewrite Hc1, Hc2. }
  rewrite Hs1 in Hsnap. injection Hsnap as Hbd.
  destruct (generate_outcome self bd) as (main & cost & Hout & Hgen).
  destruct Hout as [rate _ _ Hrate | [Hne | Hle] _ | [Hne | Hle] _];
    try (exfalso; lra);
    try (exfalso; apply Hne; rewrite <- Hbd; exact Hstd).
  match type of Hs2 with
  | _ = Some ?b => set (bd2 := b) in *
  end.
  assert (Hratio : coldRatio bd2 = coldRatio bd) by (rewrite <- Hbd; reflexivity).
  assert (Hclass : storage_class bd2 <> "STANDARD").
  { cbn [storage_class bd2 reclassed bucket_storage_class].
    destruct (target_class_cases bd) as [-> | [-> | ->]]; discriminate. }
  assert (Hcost2 : current_cost bd2 = (sizeGB bd * rate)%Q).
  { cbn [current_cost bd2 reclassed bucket_storage_class].
    unfold Py.get. rewrite Hrate. rewrite <- Hbd. reflexivity. }
  destruct (generate_outcome self' bd2) as (main2 & cost2 & Hout2 & Hgen2).
  destruct Hout2 as [rate2 Hstd2 _ _ | _ H3 | _ H3];
    [contradiction | | exfalso; rewrite Hratio in H3; lra].
  eexists _, _, bd2, _, _.
  split; [exact Hgen|]. split; [exact Hs2|].
  split; [exact Hcost2|]. split; [exact Hgen2|].
  cbn [recommendations optimized_cost analysed rec_savings lifecycle_rec].
  unfold versioning_tail.
  rewrite Hcost2.
  destruct (object_count bd2 >? 1000); repeat split; ring.
Qed.

Lemma reanalysis_after_tier_change_witness :
  exists bd self1 bd1 bd2 self2 bd2',
    snapshot (1000 * day) media_bucket stale_blobs = Some bd
    /\ _generate_recommendations init bd = Some (self1, bd1)
    /\ snapshot (1000 * day) (reclassed media_bucket (target_class bd)) stale_blobs
       = Some bd2
    /\ current_cost bd2 = optimized_cost bd1
    /\ _generate_recommendations busy_optimizer bd2 = Some (self2, bd2')
    /\ List.filter is_tier_change (recommendations bd2') = [].
Proof.
  destruct (snapshot_counts (1000 * day) media_bucket stale_blobs)
    as (counts & Hm & _ & Hc & Hsnap).
  assert (Hrare : Py.get counts "rare" 0 = 1) by (apply (Hc Rare)).
  assert (Hcold : Py.get counts "cold" 0 = 3) by (apply (Hc Cold)).
  match type of Hsnap with
  | _ = Some ?b =>
      assert (Hratio : coldRatio b = (inject_Z 4 / inject_Z 4)%Q)
        by (unfold coldRatio, rare, cold; cbn [access_frequency object_count];
            rewrite Hrare, Hcold; reflexivity);
      destruct (reanalysis_after_tier_change _ _ _ init busy_optimizer b Hsnap)
        as (self1 & bd1 & bd2 & self2 & bd2' & H1 & H2 & H3 & H4 & H5 & _);
      [ reflexivity | rewrite Hratio; vm_compute; reflexivity | exists b ]
  end.
  exists self1, bd1, bd2, self2, bd2'. repeat split; assumption.
Defined.
